(** * The SM-2 scheduler of vocabulary-learner

    A shallow embedding of
    [custom_components/vocabulary_learner/vocabulary/spaced_repetition.py]:
    the review updater ([calculate_next_review], [update_word_progress]) and
    the review selector ([get_priority_score], [get_words_for_review]).

    Python [int] is [Z]; Python [float] is the kernel's binary64 [float], so
    every constant and every operation rounds as it does in CPython; the
    exceptions the code can raise ([OverflowError], [ValueError], [TypeError]) are
    results of an error monad.  The wall clock is a parameter [now]: one call
    reads one instant, a naive datetime as [datetime.now()] returns it; a
    stored timestamp may also read back as an aware datetime, which the
    code cannot compare with the clock.  [isoformat] and [fromisoformat],
    of the Python library, are parameters.

    Around the scheduler, the file also embeds the progress objects and the
    in-memory operations of [vocabulary/word_manager.py], the two marking
    operations of [coordinator.py] up to what they hand to the storage, and
    the counting loop of [storage.update_statistics]. *)

From Stdlib Require Import ZArith List Bool String Lia Floats Uint63.
From Stdlib Require Import Permutation Sorted DecimalString.
From Stdlib Require DecimalZ DecimalPos.
Import ListNotations.
Set Warnings "-inexact-float".

Local Open Scope Z_scope.

(** ** Python exceptions and the error monad *)

Inductive exn : Set :=
| OverflowError
| ValueError
| TypeError.

Inductive result (A : Type) : Type :=
| Ok (a : A)
| Raise (e : exn).

Arguments Ok {A} a.
Arguments Raise {A} e.

Definition bind {A B : Type} (r : result A) (k : A -> result B) : result B :=
  match r with
  | Ok a => k a
  | Raise e => Raise e
  end.

Notation "x <- r ;; k" := (bind r (fun x => k))
  (at level 61, r at next level, right associativity).

(** ** Python numbers *)

Module PyNum.

(** [n] as a float when [|n| < 2^53]: the conversion is exact. *)
Definition small_to_float (n : Z) : float :=
  if n <? 0 then (- of_uint63 (of_Z (- n)))%float else of_uint63 (of_Z n).

(** [float(n)] as [int * float] and [int - float] perform it
    (PyLong_AsDouble): exact below 2^53, otherwise the 53 leading bits
    rounded half to even; an integer that rounds to 2^1024 or more raises
    OverflowError. *)
Definition int_to_float (n : Z) : result float :=
  let a := Z.abs n in
  if a <? 2 ^ 53 then Ok (small_to_float n)
  else
    let sh := Z.log2 a + 1 - 53 in
    let q := Z.shiftr a sh in
    let r := a mod 2 ^ sh in
    let half := 2 ^ (sh - 1) in
    let q' := if (half <? r) || ((r =? half) && Z.odd q) then q + 1 else q in
    if 2 ^ 1024 <=? q' * 2 ^ sh then Raise OverflowError
    else
      let f := Z.ldexp (of_uint63 (of_Z q')) sh in
      Ok (if n <? 0 then (- f)%float else f).

(** [int(x)]: truncation toward zero; ValueError on NaN, OverflowError on
    an infinity. *)
Definition float_to_int (x : float) : result Z :=
  match Prim2SF x with
  | S754_nan => Raise ValueError
  | S754_infinity _ => Raise OverflowError
  | S754_zero _ => Ok 0
  | S754_finite s m e =>
      let a := Z.shiftl (Zpos m) e in
      Ok (if s then - a else a)
  end.

(** [math.floor(x)] where it is defined, for the spec's reading of the
    interval rule. *)
Definition float_floor (x : float) : option Z :=
  match Prim2SF x with
  | S754_nan | S754_infinity _ => None
  | S754_zero _ => Some 0
  | S754_finite s m e =>
      Some (Z.shiftl (if s then Zneg m else Zpos m) e)
  end.

(** [max(a, b)] on floats: [b] when [b > a], else [a]. *)
Definition max_float (a b : float) : float :=
  if (a <? b)%float then b else a.

(** [max(a, b)] and [min(a, b)] on ints. *)
Definition max_int (a b : Z) : Z := if a <? b then b else a.
Definition min_int (a b : Z) : Z := if b <? a then b else a.

End PyNum.
Import PyNum.

(** ** Naive datetimes

    A naive [datetime] is its number of microseconds on the proleptic
    time line; [timedelta.days] is the floor of a difference in days. *)

Definition datetime := Z.

Definition microseconds_per_day : Z := 86400000000.

Definition timedelta_days (days : Z) : Z := days * microseconds_per_day.

Definition days_of_timedelta (delta : Z) : Z := delta / microseconds_per_day.

(** ** Stored values

    A value of a progress dictionary whose type the code does not rely on. *)

Inductive pyval : Type :=
| PyNone
| PyBool (b : bool)
| PyInt (n : Z)
| PyFloat (x : float)
| PyStr (s : string).

Definition truthy (v : pyval) : bool :=
  match v with
  | PyNone => false
  | PyBool b => b
  | PyInt n => negb (n =? 0)
  | PyFloat x => negb (x =? 0)%float
  | PyStr s => negb (String.eqb s EmptyString)
  end.

(** The progress dictionary: a field is [None] when its key is absent. *)
Record progress_dict : Type := mk_progress {
  status : option string;
  review_count : option Z;
  easiness : option float;
  interval : option Z;
  next_review : option pyval;
  last_review : option pyval;
  consecutive_correct : option Z;
  consecutive_incorrect : option Z
}.

(** [d.get(key, default)]. *)
Definition get {A : Type} (field : option A) (default : A) : A :=
  match field with
  | Some v => v
  | None => default
  end.

(** ** SM-2 constants *)

Definition INITIAL_EASINESS : float := 2.5.
Definition MIN_EASINESS : float := 1.3.
Definition MIN_INTERVAL : Z := 1.
Definition MAX_INTERVAL : Z := 365.

(** ** The review updater *)

(** [int(interval * new_easiness)]. *)
Definition grown_interval (interval : Z) (new_easiness : float) : result Z :=
  i <- int_to_float interval ;;
  float_to_int (i * new_easiness)%float.

Definition calculate_next_review (now : datetime)
    (quality : Z) (easiness : float) (interval review_count : Z)
    : result (float * Z * datetime) :=
  d <- int_to_float (5 - quality) ;;
  let new_easiness := (easiness + (0.1 - d * (0.08 + d * 0.02)))%float in
  let new_easiness := max_float MIN_EASINESS new_easiness in
  new_interval <-
    (if quality <? 3 then Ok MIN_INTERVAL
     else if review_count =? 0 then Ok 1
     else if review_count =? 1 then Ok 6
     else grown_interval interval new_easiness) ;;
  let new_interval := max_int MIN_INTERVAL (min_int MAX_INTERVAL new_interval) in
  let next_review := now + timedelta_days new_interval in
  Ok (new_easiness, new_interval, next_review).

Section Updater.

(** [datetime.isoformat], of the Python library. *)
Variable isoformat : datetime -> string.

Definition update_word_progress (now : datetime)
    (word_progress : progress_dict) (quality : Z) : result progress_dict :=
  let easiness0 := get (easiness word_progress) INITIAL_EASINESS in
  let interval0 := get (interval word_progress) MIN_INTERVAL in
  let review_count0 := get (review_count word_progress) 0 in
  r <- calculate_next_review now quality easiness0 interval0 review_count0 ;;
  let '(new_easiness, new_interval, next_review_date) := r in
  let correct := 3 <=? quality in
  Ok {| easiness := Some new_easiness;
        interval := Some new_interval;
        next_review := Some (PyStr (isoformat next_review_date));
        last_review := Some (PyStr (isoformat now));
        review_count := Some (review_count0 + 1);
        consecutive_correct :=
          Some (if correct
                then get (consecutive_correct word_progress) 0 + 1 else 0);
        consecutive_incorrect :=
          Some (if correct
                then 0 else get (consecutive_incorrect word_progress) 0 + 1);
        status :=
          if (4 <=? quality) && (3 <=? review_count0) then Some "known"%string
          else if 3 <=? quality then Some "learning"%string
          else if quality <? 3 then Some "unknown"%string
          else status word_progress |}.

End Updater.

(** ** The review selector *)

(** A datetime object: naive, as [datetime.now()] gives it and the updater
    stores it, or aware, with its UTC offset in microseconds, as
    [fromisoformat] gives it for a text that ends in an offset. *)
Inductive pydatetime : Type :=
| Naive (d : datetime)
| Aware (d : datetime) (utcoffset : Z).

(** [datetime.now() >= x]: naive and aware datetimes do not compare. *)
Definition now_ge (now : datetime) (x : pydatetime) : result bool :=
  match x with
  | Naive d => Ok (d <=? now)
  | Aware _ _ => Raise TypeError
  end.

(** [datetime.now() - x], a timedelta in microseconds: naive and aware
    datetimes do not subtract. *)
Definition now_minus (now : datetime) (x : pydatetime) : result Z :=
  match x with
  | Naive d => Ok (now - d)
  | Aware _ _ => Raise TypeError
  end.

Definition is_due_for_review (now : datetime)
    (next_review : option pydatetime) : result bool :=
  match next_review with
  | None => Ok true
  | Some x => now_ge now x
  end.

Definition get_priority_score (now : datetime)
    (next_review : option pydatetime) (review_count : Z) (easiness : float)
    (status : string) : result float :=
  let score := 0%float in
  if review_count =? 0 then Ok 1000%float
  else
    score <-
      match next_review with
      | Some x =>
          due <- is_due_for_review now (Some x) ;;
          if due then
            delta <- now_minus now x ;;
            let days_overdue := days_of_timedelta delta in
            days <- int_to_float days_overdue ;;
            Ok (score + (100.0 + days * 10.0))%float
          else Ok score
      | None => Ok score
      end ;;
    let score := (score + (3.0 - easiness) * 5.0)%float in
    let score :=
      if String.eqb status "unknown" then (score + 50.0)%float
      else if String.eqb status "learning" then (score + 25.0)%float
      else score in
    count <- int_to_float review_count ;;
    Ok (score - count * 0.1)%float.

(** A word of the pool: its text and, when the key is present, its progress
    dictionary. *)
Record word_dict : Type := mk_word {
  word : string;
  progress : option progress_dict
}.

(** The empty dictionary [{}]. *)
Definition empty_progress : progress_dict :=
  {| status := None; review_count := None; easiness := None;
     interval := None; next_review := None; last_review := None;
     consecutive_correct := None; consecutive_incorrect := None |}.

(** [list.sort(key=lambda x: x[0], reverse=True)]: the stable sort by
    decreasing key.  An element is moved behind exactly the elements whose key
    is greater, so entries that compare equal stay in input order.  The
    keys of one call are compared with the float [<]; list.sort returns this
    list whenever [<] orders the keys, that is when none is NaN. *)
Section Sort.

Variable A : Type.

Fixpoint insert_by_key (x : float * A) (l : list (float * A))
    : list (float * A) :=
  match l with
  | [] => [x]
  | y :: l' =>
      if (fst x <? fst y)%float then y :: insert_by_key x l' else x :: l
  end.

Definition sort_reverse (l : list (float * A)) : list (float * A) :=
  fold_right insert_by_key [] l.

End Sort.

Arguments insert_by_key {A} x l.
Arguments sort_reverse {A} l.

(** [l[:stop]]: a negative [stop] counts from the end. *)
Definition slice_to {A : Type} (l : list A) (stop : Z) : list A :=
  if stop <? 0 then firstn (Z.to_nat (Z.of_nat (List.length l) + stop)) l
  else firstn (Z.to_nat stop) l.

Section Selector.

(** [datetime.fromisoformat] on a string, of the Python library; [None]
    when it raises ValueError.  The datetime is naive for a text without
    UTC offset, as the updater writes it, and aware for a text with one. *)
Variable fromisoformat : string -> option pydatetime.

(** [datetime.fromisoformat(v)]: TypeError when [v] is not a string. *)
Definition datetime_fromisoformat (v : pyval) : result pydatetime :=
  match v with
  | PyStr s =>
      match fromisoformat s with
      | Some d => Ok d
      | None => Raise ValueError
      end
  | _ => Raise TypeError
  end.

(** Lines 184-190: the stored text of the next review, read back. *)
Definition load_next_review (next_review_str : option pyval)
    : result (option pydatetime) :=
  match next_review_str with
  | None => Ok None
  | Some v =>
      if truthy v then
        match datetime_fromisoformat v with
        | Ok d => Ok (Some d)
        | Raise ValueError | Raise TypeError => Ok None
        | Raise e => Raise e
        end
      else Ok None
  end.

(** One turn of the loop of [get_words_for_review]: the priority of a
    word.  A next review that reads back as an aware datetime makes
    [get_priority_score] raise TypeError at its comparison with the clock,
    unless the word was never reviewed. *)
Definition word_priority (now : datetime) (word_data : word_dict)
    : result float :=
  let progress := get (progress word_data) empty_progress in
  next_review <- load_next_review (next_review progress) ;;
  get_priority_score now next_review
    (get (review_count progress) 0)
    (get (easiness progress) INITIAL_EASINESS)
    (get (status progress) "unknown"%string).

Fixpoint words_with_priority (now : datetime) (all_words : list word_dict)
    : result (list (float * word_dict)) :=
  match all_words with
  | [] => Ok []
  | word_data :: rest =>
      priority <- word_priority now word_data ;;
      tail <- words_with_priority now rest ;;
      Ok ((priority, word_data) :: tail)
  end.

Definition get_words_for_review (now : datetime)
    (all_words : list word_dict) (max_words : Z) : result (list word_dict) :=
  scored <- words_with_priority now all_words ;;
  Ok (map snd (slice_to (sort_reverse scored) max_words)).

End Selector.

(** ** The order of binary64 values

    [SFcompare] is the lexicographic order of a triple of integers: the class
    of the value (negative infinity, negative, zero, positive, positive
    infinity), then exponent and mantissa, both negated on the negative
    side. *)

Definition rank (x : spec_float) : Z * Z * Z :=
  match x with
  | S754_nan => (3, 0, 0)
  | S754_infinity true => (-2, 0, 0)
  | S754_infinity false => (2, 0, 0)
  | S754_zero _ => (0, 0, 0)
  | S754_finite true m e => (-1, - e, Zneg m)
  | S754_finite false m e => (1, e, Zpos m)
  end.

Definition lt3 (a b : Z * Z * Z) : Prop :=
  let '(a1, a2, a3) := a in
  let '(b1, b2, b3) := b in
  a1 < b1 \/ (a1 = b1 /\ (a2 < b2 \/ (a2 = b2 /\ a3 < b3))).

Definition eq3 (a b : Z * Z * Z) : Prop :=
  let '(a1, a2, a3) := a in
  let '(b1, b2, b3) := b in
  a1 = b1 /\ a2 = b2 /\ a3 = b3.

(** What [SFcompare] answers, as a relation on ranks. *)
Definition compare_spec3 (x y : spec_float) (c : option comparison) : Prop :=
  match c with
  | None => x = S754_nan \/ y = S754_nan
  | Some Lt => x <> S754_nan /\ y <> S754_nan /\ lt3 (rank x) (rank y)
  | Some Eq => x <> S754_nan /\ y <> S754_nan /\ eq3 (rank x) (rank y)
  | Some Gt => x <> S754_nan /\ y <> S754_nan /\ lt3 (rank y) (rank x)
  end.

(** ** The spec's readings *)

(** Section 4.1: [newEF = EF + (0.1 - (5 - quality) * (0.08 + (5 - quality)
    * 0.02))], before the floor. *)
Definition spec_raw_easiness (quality : Z) (EF : float) : float :=
  let d := small_to_float (5 - quality) in
  (EF + (0.1 - d * (0.08 + d * 0.02)))%float.

(** ... then floored at 1.3. *)
Definition spec_easiness (quality : Z) (EF : float) : float :=
  max_float 1.3 (spec_raw_easiness quality EF).

Definition is_ok {A : Type} (r : result A) : bool :=
  match r with
  | Ok _ => true
  | Raise _ => false
  end.

(** The calls of the updater that return: the ones that do not reach
    [int(interval * new_easiness)], and the ones where it has a value. *)
Definition review_defined (word_progress : progress_dict) (quality : Z) : bool :=
  let EF := get (easiness word_progress) INITIAL_EASINESS in
  (quality <? 3)
  || (get (review_count word_progress) 0 =? 0)
  || (get (review_count word_progress) 0 =? 1)
  || is_ok (grown_interval (get (interval word_progress) MIN_INTERVAL)
              (spec_easiness quality EF)).

(** Section 4.2: sorted by priority descending, ties in input order. *)

(** Every entry has at least the priority of the entries behind it. *)
Definition descending {A : Type} (l : list (float * A)) : Prop :=
  StronglySorted (fun a b => (fst b <=? fst a)%float = true) l.

(** The entries of priority [k], in the order of the list. *)
Definition with_priority {A : Type} (k : float) (l : list (float * A))
    : list (float * A) :=
  filter (fun e => (fst e =? k)%float) l.

(** A stored next review that yields no datetime: the key is absent, or
    [datetime.fromisoformat] raises on the value. *)
Definition unparseable (fromisoformat : string -> option pydatetime)
    (v : option pyval) : bool :=
  match v with
  | None => true
  | Some x => negb (is_ok (datetime_fromisoformat fromisoformat x))
  end.

(** A word whose priority is a number: scoring it raises nothing and the
    score is not NaN. *)
Definition scorable (fromisoformat : string -> option pydatetime)
    (now : datetime) (word_data : word_dict) : bool :=
  match word_priority fromisoformat now word_data with
  | Ok p => negb (is_nan p)
  | Raise _ => false
  end.

(** What the selector reads of a word. *)
Definition reviews_of (word_data : word_dict) : Z :=
  get (review_count (get (progress word_data) empty_progress)) 0.

Definition easiness_of (word_data : word_dict) : float :=
  get (easiness (get (progress word_data) empty_progress)) INITIAL_EASINESS.

Definition status_of (word_data : word_dict) : string :=
  get (status (get (progress word_data) empty_progress)) "unknown"%string.

Definition stored_next_review (word_data : word_dict) : option pyval :=
  next_review (get (progress word_data) empty_progress).

(** ** Values for the concrete runs *)

(** A rendering of a datetime, for the runs below: its microsecond count in
    decimal.  Nothing proved depends on the rendering. *)
Definition example_isoformat (d : datetime) : string :=
  NilZero.string_of_int (Z.to_int d).

(** A word reviewed four times, as in scenario C of the spec. *)
Definition example_progress : progress_dict :=
  {| status := Some "learning"%string; review_count := Some 4;
     easiness := Some 2.0%float; interval := Some 10;
     next_review := None; last_review := None;
     consecutive_correct := Some 2; consecutive_incorrect := Some 0 |}.

(** The reading that goes with [example_isoformat]: a decimal is a naive
    datetime, a decimal followed by "+00:00" an aware one. *)
Definition example_fromisoformat (s : string) : option pydatetime :=
  match NilZero.int_of_string s with
  | Some i => Some (Naive (Z.of_int i))
  | None =>
      let n := String.length s in
      if String.eqb (substring (n - 6)%nat 6 s) "+00:00"
      then option_map (fun i => Aware (Z.of_int i) 0)
             (NilZero.int_of_string (substring 0 (n - 6)%nat s))
      else None
  end.

Definition example_word (w : string) (count : Z) (stored : option pyval)
    : word_dict :=
  {| word := w;
     progress :=
       Some {| status := Some "learning"%string; review_count := Some count;
               easiness := Some 2.5%float; interval := Some 1;
               next_review := stored; last_review := None;
               consecutive_correct := None; consecutive_incorrect := None |} |}.

(** Scenario D of the spec at instant 0, with a fourth word whose stored
    next review is not a timestamp: one word due in three days, one overdue
    by five days, one never reviewed. *)
Definition example_pool : list word_dict :=
  [ example_word "later" 2 (Some (PyStr "259200000000"));
    example_word "overdue" 2 (Some (PyStr "-432000000001"));
    example_word "unseen" 0 None;
    example_word "garbled" 2 (Some (PyStr "tomorrow")) ].

(** Words whose stored next review is no timestamp: a text that does not
    parse, a number, a null, and a word without progress. *)
Definition example_unparseable_pool : list word_dict :=
  [ example_word "garbled" 2 (Some (PyStr "tomorrow"));
    example_word "numbered" 3 (Some (PyInt 20240101));
    example_word "nulled" 1 (Some PyNone);
    {| word := "fresh"; progress := None |} ].

(** ** Progress objects and the word manager

    [vocabulary/word_manager.py]: the class [WordProgress] with its two
    conversions, and the operations of [WordManager] on its dictionary of
    progress objects; then the two marking operations of [coordinator.py]
    that call the review updater.  What these functions hand to the storage
    of Home Assistant is a value here; the storage itself is not modelled. *)

(** The errors of these layers: an AttributeError of their own, or an error
    of the scheduler. *)
Inductive error : Set :=
| AttributeError
| Scheduler (e : exn).

Inductive attempt (A : Type) : Type :=
| Returns (a : A)
| Raises (e : error).

Arguments Returns {A} a.
Arguments Raises {A} e.

Definition attempt_bind {A B : Type} (r : attempt A) (k : A -> attempt B)
    : attempt B :=
  match r with
  | Returns a => k a
  | Raises e => Raises e
  end.

Notation "x <~ r ;; k" := (attempt_bind r (fun x => k))
  (at level 61, r at next level, right associativity).

(** A call of the scheduler inside these layers. *)
Definition scheduler {A : Type} (r : result A) : attempt A :=
  match r with
  | Ok a => Returns a
  | Raise e => Raises (Scheduler e)
  end.

(** The attributes [last_review] and [next_review] are meant to hold a
    datetime or None; [setattr] stores whatever it is given.  [Instant] is
    a naive datetime, [AwareInstant] an aware one with its UTC offset in
    microseconds. *)
Inductive timestamp_attr : Type :=
| Instant (d : datetime)
| AwareInstant (d : datetime) (utcoffset : Z)
| Stored (v : pyval).

(** ["%0<width>d" % n], for 0 <= n < 10^width. *)
Fixpoint zero_padded (width : nat) (n : Z) : string :=
  match width with
  | O => EmptyString
  | S w =>
      zero_padded w (n / 10)
      ++ String (Ascii.ascii_of_nat (48 + Z.to_nat (n mod 10))) EmptyString
  end.

(** What [isoformat] appends for an aware datetime: the UTC offset as
    [+HH:MM], with [:SS] when it has seconds and [.ffffff] when it has
    microseconds (offsets are shorter than a day). *)
Definition format_utcoffset (utcoffset : Z) : string :=
  let sign := if utcoffset <? 0 then "-"%string else "+"%string in
  let off := Z.abs utcoffset in
  let hh := off / 3600000000 in
  let mm := (off mod 3600000000) / 60000000 in
  let ss := off mod 60000000 in
  let microseconds :=
    if ss mod 1000000 =? 0 then ""%string
    else ("." ++ zero_padded 6 (ss mod 1000000))%string in
  let seconds :=
    if ss =? 0 then ""%string
    else (":" ++ zero_padded 2 (ss / 1000000) ++ microseconds)%string in
  (sign ++ zero_padded 2 hh ++ ":" ++ zero_padded 2 mm ++ seconds)%string.

(** An object of class [WordProgress]. *)
Record WordProgress : Type := mk_WordProgress {
  wp_word : string;
  wp_status : string;
  wp_review_count : Z;
  wp_last_review : timestamp_attr;
  wp_next_review : timestamp_attr;
  wp_easiness : float;
  wp_interval : Z;
  wp_consecutive_correct : Z;
  wp_consecutive_incorrect : Z
}.

(** [WordProgress(word=w)]: the defaults of [__init__]. *)
Definition new_progress (w : string) : WordProgress :=
  {| wp_word := w; wp_status := "unknown"; wp_review_count := 0;
     wp_last_review := Stored PyNone; wp_next_review := Stored PyNone;
     wp_easiness := 2.5; wp_interval := 1;
     wp_consecutive_correct := 0; wp_consecutive_incorrect := 0 |}.

(** The dictionary of a progress object: the key "word" and the eight keys
    the scheduler works on. *)
Record word_progress_dict : Type := mk_word_progress_dict {
  word_key : option string;
  other_keys : progress_dict
}.

Section WordProgressConversions.

Variable isoformat : datetime -> string.
Variable fromisoformat : string -> option pydatetime.

(** [x.isoformat() if x else None]: a datetime is always true, and the
    text of an aware one is the text of its date and time followed by its
    offset; any other true value has no method [isoformat]. *)
Definition timestamp_to_dict (x : timestamp_attr) : attempt pyval :=
  match x with
  | Instant d => Returns (PyStr (isoformat d))
  | AwareInstant d utcoffset =>
      Returns (PyStr (isoformat d ++ format_utcoffset utcoffset))
  | Stored v => if truthy v then Raises AttributeError else Returns PyNone
  end.

Definition to_dict (self : WordProgress) : attempt word_progress_dict :=
  last <~ timestamp_to_dict (wp_last_review self) ;;
  next <~ timestamp_to_dict (wp_next_review self) ;;
  Returns
    {| word_key := Some (wp_word self);
       other_keys :=
         {| status := Some (wp_status self);
            review_count := Some (wp_review_count self);
            last_review := Some last;
            next_review := Some next;
            easiness := Some (wp_easiness self);
            interval := Some (wp_interval self);
            consecutive_correct := Some (wp_consecutive_correct self);
            consecutive_incorrect := Some (wp_consecutive_incorrect self) |} |}.

(** The attribute [from_dict] builds from what it read. *)
Definition timestamp_of (read : option pydatetime) : timestamp_attr :=
  match read with
  | Some (Naive d) => Instant d
  | Some (Aware d utcoffset) => AwareInstant d utcoffset
  | None => Stored PyNone
  end.

(** [from_dict] reads each timestamp as [get_words_for_review] does: the
    same test and the same [try]. *)
Definition from_dict (data : word_progress_dict) : result WordProgress :=
  let keys := other_keys data in
  last <- load_next_review fromisoformat (last_review keys) ;;
  next <- load_next_review fromisoformat (next_review keys) ;;
  Ok {| wp_word := get (word_key data) ""%string;
        wp_status := get (status keys) "unknown"%string;
        wp_review_count := get (review_count keys) 0;
        wp_last_review := timestamp_of last;
        wp_next_review := timestamp_of next;
        wp_easiness := get (easiness keys) 2.5%float;
        wp_interval := get (interval keys) 1;
        wp_consecutive_correct := get (consecutive_correct keys) 0;
        wp_consecutive_incorrect := get (consecutive_incorrect keys) 0 |}.

End WordProgressConversions.

(** A Python dictionary with string keys: the items in insertion order, a
    key at most once. *)
Section Dict.

Variable V : Type.

Fixpoint dict_get (k : string) (d : list (string * V)) : option V :=
  match d with
  | [] => None
  | (k', v) :: d' => if String.eqb k k' then Some v else dict_get k d'
  end.

(** [d[k] = v]: in place when the key is there, at the end when it is new. *)
Fixpoint dict_set (k : string) (v : V) (d : list (string * V))
    : list (string * V) :=
  match d with
  | [] => [(k, v)]
  | (k', v') :: d' =>
      if String.eqb k k' then (k, v) :: d' else (k', v') :: dict_set k v d'
  end.

End Dict.

Arguments dict_get {V} k d.
Arguments dict_set {V} k v d.

(** [WordManager._progress]. *)
Definition progress_map : Type := list (string * WordProgress).

(** The first statement of [mark_known], [mark_unknown], [mark_learning]
    and [update_progress]: a word without progress gets a new object. *)
Definition ensure_progress (word : string) (m : progress_map) : progress_map :=
  match dict_get word m with
  | Some _ => m
  | None => dict_set word (new_progress word) m
  end.

(** The object of [self._progress[word]] changed in place by [change]. *)
Definition change_progress (word : string)
    (change : WordProgress -> WordProgress) (m : progress_map) : progress_map :=
  match dict_get word m with
  | Some progress => dict_set word (change progress) m
  | None => m
  end.

Definition get_progress (word : string) (m : progress_map)
    : option WordProgress :=
  dict_get word m.

Definition mark_known (now : datetime) (word : string) (m : progress_map)
    : progress_map :=
  change_progress word
    (fun progress =>
       {| wp_word := wp_word progress;
          wp_status := "known";
          wp_review_count := wp_review_count progress;
          wp_last_review := Instant now;
          wp_next_review := wp_next_review progress;
          wp_easiness := wp_easiness progress;
          wp_interval := wp_interval progress;
          wp_consecutive_correct := wp_consecutive_correct progress + 1;
          wp_consecutive_incorrect := 0 |})
    (ensure_progress word m).

Definition mark_unknown (now : datetime) (word : string) (m : progress_map)
    : progress_map :=
  change_progress word
    (fun progress =>
       {| wp_word := wp_word progress;
          wp_status := "unknown";
          wp_review_count := wp_review_count progress;
          wp_last_review := Instant now;
          wp_next_review := wp_next_review progress;
          wp_easiness := wp_easiness progress;
          wp_interval := wp_interval progress;
          wp_consecutive_correct := 0;
          wp_consecutive_incorrect := wp_consecutive_incorrect progress + 1 |})
    (ensure_progress word m).

Definition mark_learning (now : datetime) (word : string) (m : progress_map)
    : progress_map :=
  change_progress word
    (fun progress =>
       if String.eqb (wp_status progress) "unknown" then
         {| wp_word := wp_word progress;
            wp_status := "learning";
            wp_review_count := wp_review_count progress;
            wp_last_review := Instant now;
            wp_next_review := wp_next_review progress;
            wp_easiness := wp_easiness progress;
            wp_interval := wp_interval progress;
            wp_consecutive_correct := wp_consecutive_correct progress;
            wp_consecutive_incorrect := wp_consecutive_incorrect progress |}
       else progress)
    (ensure_progress word m).

(** The loop of [update_progress]: every key of the dictionary names an
    attribute of the object, so every key present is assigned, with the
    value as it is. *)
Definition setattr_all (progress_data : word_progress_dict)
    (progress : WordProgress) : WordProgress :=
  let keys := other_keys progress_data in
  {| wp_word := get (word_key progress_data) (wp_word progress);
     wp_status := get (status keys) (wp_status progress);
     wp_review_count := get (review_count keys) (wp_review_count progress);
     wp_last_review :=
       match last_review keys with
       | Some v => Stored v
       | None => wp_last_review progress
       end;
     wp_next_review :=
       match next_review keys with
       | Some v => Stored v
       | None => wp_next_review progress
       end;
     wp_easiness := get (easiness keys) (wp_easiness progress);
     wp_interval := get (interval keys) (wp_interval progress);
     wp_consecutive_correct :=
       get (consecutive_correct keys) (wp_consecutive_correct progress);
     wp_consecutive_incorrect :=
       get (consecutive_incorrect keys) (wp_consecutive_incorrect progress) |}.

Definition update_progress (word : string) (progress_data : word_progress_dict)
    (m : progress_map) : progress_map :=
  change_progress word (setattr_all progress_data) (ensure_progress word m).

Definition words_of_status (st : string) (m : progress_map) : list string :=
  map fst (filter (fun item => String.eqb (wp_status (snd item)) st) m).

Definition get_known_words (m : progress_map) : list string :=
  words_of_status "known" m.

Definition get_unknown_words (m : progress_map) : list string :=
  words_of_status "unknown" m.

Definition get_learning_words (m : progress_map) : list string :=
  words_of_status "learning" m.

(** The memory side of [reset_progress]: an empty dictionary, then a new
    object for each word of the vocabulary, in its order. *)
Definition reset_progress (vocabulary : list string) : progress_map :=
  fold_left (fun m w => dict_set w (new_progress w) m) vocabulary [].

Section WordManagerStorage.

Variable isoformat : datetime -> string.
Variable fromisoformat : string -> option pydatetime.

(** The dictionary [_save_progress] builds for the storage. *)
Fixpoint progress_to_dicts (m : progress_map)
    : attempt (list (string * word_progress_dict)) :=
  match m with
  | [] => Returns []
  | (word, progress) :: rest =>
      d <~ to_dict isoformat progress ;;
      ds <~ progress_to_dicts rest ;;
      Returns ((word, d) :: ds)
  end.

(** The dictionary [load_vocabulary] builds from the storage. *)
Fixpoint progress_from_dicts (data : list (string * word_progress_dict))
    : result progress_map :=
  match data with
  | [] => Ok []
  | (word, d) :: rest =>
      progress <- from_dict fromisoformat d ;;
      m <- progress_from_dicts rest ;;
      Ok ((word, progress) :: m)
  end.

(** [coordinator.mark_word_known] and [mark_word_unknown] before they
    save (lines 205-212 and 218-225): the mark, the review with the quality
    of the mark, and the assignment of its result to the object.  [t_mark]
    and [t_review] are the instants the manager and the updater read. *)
Definition marked_in_memory
    (mark : datetime -> string -> progress_map -> progress_map)
    (quality : Z) (t_mark t_review : datetime) (word : string)
    (m : progress_map) : attempt progress_map :=
  let m := mark t_mark word m in
  match get_progress word m with
  | Some progress =>
      d <~ to_dict isoformat progress ;;
      updated <~ scheduler (update_word_progress isoformat t_review
                              (other_keys d) quality) ;;
      Returns (update_progress word
                 {| word_key := word_key d; other_keys := updated |} m)
  | None => Returns m
  end.

(** ... and then [save_progress], up to the dictionary it hands to the
    storage. *)
Definition mark_word
    (mark : datetime -> string -> progress_map -> progress_map)
    (quality : Z) (t_mark t_review : datetime) (word : string)
    (m : progress_map)
    : attempt (progress_map * list (string * word_progress_dict)) :=
  m <~ marked_in_memory mark quality t_mark t_review word m ;;
  saved <~ progress_to_dicts m ;;
  Returns (m, saved).

Definition mark_word_known := mark_word mark_known 5.

Definition mark_word_unknown := mark_word mark_unknown 0.

End WordManagerStorage.

(** A progress object as the manager itself fills it: each timestamp a
    naive datetime or None. *)
Definition well_typed (progress : WordProgress) : bool :=
  match wp_last_review progress, wp_next_review progress with
  | (Instant _ | Stored PyNone), (Instant _ | Stored PyNone) => true
  | _, _ => false
  end.

(** A progress object as the class means it: each timestamp a datetime,
    naive or aware, or None. *)
Definition holds_datetimes (progress : WordProgress) : bool :=
  match wp_last_review progress, wp_next_review progress with
  | (Instant _ | AwareInstant _ _ | Stored PyNone),
    (Instant _ | AwareInstant _ _ | Stored PyNone) => true
  | _, _ => false
  end.

(** The reviews of a progress object that return, as [review_defined]
    has them for a dictionary. *)
Definition object_review_defined (progress : WordProgress) (quality : Z)
    : bool :=
  (quality <? 3)
  || (wp_review_count progress =? 0)
  || (wp_review_count progress =? 1)
  || is_ok (grown_interval (wp_interval progress)
              (spec_easiness quality (wp_easiness progress))).

(** ** The statistics of the storage

    [storage.py], the loop of [update_statistics]: the stored vocabulary is
    a list of dictionaries, of which the loop reads the key "word"; the
    stored progress maps a word to its dictionary.  The result is the four
    values the function writes: total_words, known_words, learning_words
    and unknown_words. *)
Definition update_statistics (vocabulary : list (option string))
    (progress : list (string * word_progress_dict)) : Z * Z * Z * Z :=
  let total_words := Z.of_nat (List.length vocabulary) in
  let '(known_words, learning_words, unknown_words) :=
    fold_left
      (fun (counts : Z * Z * Z) (word_entry : option string) =>
         let '(known_words, learning_words, unknown_words) := counts in
         let word := get word_entry ""%string in
         let word_progress :=
           get (dict_get word progress)
             {| word_key := None; other_keys := empty_progress |} in
         let status :=
           get (status (other_keys word_progress)) "unknown"%string in
         if String.eqb status "known"
         then (known_words + 1, learning_words, unknown_words)
         else if String.eqb status "learning"
         then (known_words, learning_words + 1, unknown_words)
         else (known_words, learning_words, unknown_words + 1))
      vocabulary (0, 0, 0) in
  (total_words, known_words, learning_words, unknown_words).

(** A dictionary of progress objects, for the runs below. *)
Definition example_manager : progress_map :=
  [ ("haus", {| wp_word := "haus"; wp_status := "learning";
                wp_review_count := 4;
                wp_last_review := Instant 0;
                wp_next_review := Instant (6 * microseconds_per_day);
                wp_easiness := 2.0; wp_interval := 10;
                wp_consecutive_correct := 2;
                wp_consecutive_incorrect := 0 |})%string;
    ("baum", new_progress "baum")%string ].

(** * Properties *)

(** ** Floats *)

Lemma SFcompare_rank (x y : spec_float) : compare_spec3 x y (SFcompare x y).
Proof.
  destruct x as [sx|sx| |sx mx ex], y as [sy|sy| |sy my ey]; simpl; auto;
    try destruct sx; try destruct sy; simpl;
    try (repeat split; try discriminate; lia).
  - destruct (Z.compare_spec ex ey); simpl.
    + subst. change (Pos.compare_cont Eq mx my) with (Pos.compare mx my).
      destruct (Pos.compare_spec mx my); simpl;
        repeat split; try discriminate; try lia.
    + repeat split; try discriminate; lia.
    + repeat split; try discriminate; lia.
  - destruct (Z.compare_spec ex ey); simpl.
    + subst. change (Pos.compare_cont Eq mx my) with (Pos.compare mx my).
      destruct (Pos.compare_spec mx my); simpl;
        repeat split; try discriminate; try lia.
    + repeat split; try discriminate; lia.
    + repeat split; try discriminate; lia.
Qed.

(** Unfolds the primitive comparisons to [SFcompare] and names the answer of
    each comparison in sight. *)
Ltac to_ranks :=
  unfold is_nan in *;
  rewrite ?FloatAxioms.ltb_spec, ?FloatAxioms.leb_spec, ?FloatAxioms.eqb_spec in *;
  unfold SFltb, SFleb, SFeqb in *;
  repeat match goal with
  | |- context [SFcompare ?x ?y] =>
      let H := fresh "R" in
      pose proof (SFcompare_rank x y) as H; destruct (SFcompare x y) as [[ | | ]|]
  | H0 : context [SFcompare ?x ?y] |- _ =>
      let H := fresh "R" in
      pose proof (SFcompare_rank x y) as H; destruct (SFcompare x y) as [[ | | ]|]
  end;
  simpl in *; try discriminate; try reflexivity.

Ltac rank_lia :=
  unfold compare_spec3, lt3, eq3 in *;
  repeat match goal with
  | |- context [rank ?x] =>
      let a := fresh "a" in let b := fresh "b" in let c := fresh "c" in
      destruct (rank x) as [[a b] c]
  | H : context [rank ?x] |- _ =>
      let a := fresh "a" in let b := fresh "b" in let c := fresh "c" in
      destruct (rank x) as [[a b] c]
  end;
  intuition (try congruence; try lia).

Lemma ltb_leb (a b : float) : (a <? b)%float = true -> (a <=? b)%float = true.
Proof. intros H. to_ranks. Qed.

Lemma not_ltb_leb (a b : float) :
  is_nan a = false -> is_nan b = false ->
  (a <? b)%float = false -> (b <=? a)%float = true.
Proof.
  intros Ha Hb H. pose proof (SFcompare_rank (Prim2SF b) (Prim2SF a)) as Rba.
  to_ranks; rank_lia.
Qed.

Lemma leb_trans (a b c : float) :
  (a <=? b)%float = true -> (b <=? c)%float = true -> (a <=? c)%float = true.
Proof.
  intros H1 H2. pose proof (SFcompare_rank (Prim2SF a) (Prim2SF c)) as Rac.
  to_ranks; rank_lia.
Qed.

Lemma ltb_not_leb (a b : float) :
  (a <? b)%float = true -> (b <=? a)%float = false.
Proof.
  intros H. pose proof (SFcompare_rank (Prim2SF b) (Prim2SF a)) as Rba.
  to_ranks; rank_lia.
Qed.

Lemma eqb_ltb_neq (x y k : float) :
  (x =? k)%float = true -> (x <? y)%float = true -> (y =? k)%float = false.
Proof.
  intros H1 H2. pose proof (SFcompare_rank (Prim2SF y) (Prim2SF k)) as Ryk.
  to_ranks; rank_lia.
Qed.

(** ** Python numbers *)

Lemma int_to_float_small (n : Z) :
  Z.abs n < 2 ^ 53 -> int_to_float n = Ok (small_to_float n).
Proof.
  intros H. unfold int_to_float.
  destruct (Z.ltb_spec (Z.abs n) (2 ^ 53)); [reflexivity | lia].
Qed.

Lemma int_to_float_in_range (n : Z) :
  Z.abs n < 2 ^ 1023 -> exists f, int_to_float n = Ok f.
Proof.
  intros H. unfold int_to_float.
  destruct (Z.ltb_spec (Z.abs n) (2 ^ 53)) as [Hs|Hs]; [eauto|].
  set (a := Z.abs n) in *.
  assert (Ha : 0 < a) by (assert (0 < 2 ^ 53) by reflexivity; lia).
  assert (Hlo : 53 <= Z.log2 a) by (apply Z.log2_le_pow2; [lia | exact Hs]).
  assert (Hhi : Z.log2 a < 1023) by (apply Z.log2_lt_pow2; [lia | exact H]).
  set (sh := Z.log2 a + 1 - 53).
  assert (Hq : Z.shiftr a sh < 2 ^ 53).
  { rewrite Z.shiftr_div_pow2 by lia.
    apply Z.div_lt_upper_bound; [apply Z.pow_pos_nonneg; lia|].
    rewrite <- Z.pow_add_r by lia.
    replace (sh + 53) with (Z.succ (Z.log2 a)) by lia.
    apply Z.log2_spec; lia. }
  match goal with |- context [if ?c then Z.shiftr a sh + 1 else _] =>
    set (q' := if c then Z.shiftr a sh + 1 else Z.shiftr a sh) end.
  assert (Hq' : q' <= 2 ^ 53) by (subst q'; destruct (_ || _); lia).
  assert (Hp : 0 < 2 ^ sh) by (apply Z.pow_pos_nonneg; lia).
  assert (Hb : q' * 2 ^ sh < 2 ^ 1024).
  { apply Z.le_lt_trans with (2 ^ 53 * 2 ^ sh); [nia|].
    rewrite <- Z.pow_add_r by lia. apply Z.pow_lt_mono_r; lia. }
  destruct (Z.leb_spec (2 ^ 1024) (q' * 2 ^ sh)); [lia | eauto].
Qed.

Lemma max_int_max (a b : Z) : max_int a b = Z.max a b.
Proof. unfold max_int. destruct (Z.ltb_spec a b); lia. Qed.

Lemma min_int_min (a b : Z) : min_int a b = Z.min a b.
Proof. unfold min_int. destruct (Z.ltb_spec b a); lia. Qed.

(** [max(1.3, x)] is at least 1.3, whatever [x], NaN included. *)
Lemma max_float_floor (x : float) :
  (MIN_EASINESS <=? max_float MIN_EASINESS x)%float = true.
Proof.
  unfold max_float. destruct (MIN_EASINESS <? x)%float eqn:E.
  - now apply ltb_leb.
  - reflexivity.
Qed.

(** Truncation and floor differ on negative values only, which the clamp
    sends to 1 alike. *)
Lemma clamp_trunc_floor (x : float) (n p : Z) :
  float_to_int x = Ok n -> float_floor x = Some p ->
  Z.max 1 (Z.min 365 n) = Z.max 1 (Z.min 365 p).
Proof.
  unfold float_to_int, float_floor.
  destruct (Prim2SF x) as [s|s| |s m e]; try discriminate.
  - intros [= <-] [= <-]. reflexivity.
  - intros [= <-] [= <-]. destruct s; [|reflexivity].
    assert (0 <= Z.shiftl (Z.pos m) e) by (apply Z.shiftl_nonneg; lia).
    assert (Z.shiftl (Z.neg m) e <= 0).
    { destruct (Z.le_gt_cases (Z.shiftl (Z.neg m) e) 0) as [|G]; [assumption|].
      assert (0 <= Z.neg m) by (apply (Z.shiftl_nonneg _ e); lia). lia. }
    lia.
Qed.

Lemma float_floor_defined (x : float) (n : Z) :
  float_to_int x = Ok n -> exists p, float_floor x = Some p.
Proof.
  unfold float_to_int, float_floor.
  destruct (Prim2SF x) as [s|s| |s m e]; try discriminate; eauto.
Qed.

(** ** The review updater *)

Section UpdaterProperties.

Variable isoformat : datetime -> string.
Variable now : datetime.

(** [calculate_next_review] computes the spec's easiness, and the interval
    from the branch its arguments select. *)
Lemma calculate_next_review_eq (q : Z) (EF : float) (ivl rc : Z) :
  Z.abs (5 - q) < 2 ^ 53 ->
  calculate_next_review now q EF ivl rc =
    (n <- (if q <? 3 then Ok 1
           else if rc =? 0 then Ok 1
           else if rc =? 1 then Ok 6
           else grown_interval ivl (spec_easiness q EF)) ;;
     Ok (spec_easiness q EF, Z.max 1 (Z.min 365 n),
         now + timedelta_days (Z.max 1 (Z.min 365 n)))).
Proof.
  intros Hq. unfold calculate_next_review.
  rewrite (int_to_float_small _ Hq). cbn [bind].
  fold (spec_raw_easiness q EF). fold (spec_easiness q EF).
  unfold MIN_INTERVAL, MAX_INTERVAL.
  destruct (if q <? 3 then _ else _) as [n|e]; cbn [bind]; [|reflexivity].
  now rewrite max_int_max, min_int_min.
Qed.

(** A defined review returns, and this is the state it returns. *)
Lemma update_word_progress_defined (st : progress_dict) (q : Z) :
  Z.abs (5 - q) < 2 ^ 53 ->
  review_defined st q = true ->
  let EF := get (easiness st) INITIAL_EASINESS in
  let ivl := get (interval st) MIN_INTERVAL in
  let rc := get (review_count st) 0 in
  exists n,
    (if q <? 3 then Ok 1
     else if rc =? 0 then Ok 1
     else if rc =? 1 then Ok 6
     else grown_interval ivl (spec_easiness q EF)) = Ok n /\
    update_word_progress isoformat now st q =
      Ok {| easiness := Some (spec_easiness q EF);
            interval := Some (Z.max 1 (Z.min 365 n));
            next_review :=
              Some (PyStr (isoformat
                             (now + timedelta_days (Z.max 1 (Z.min 365 n)))));
            last_review := Some (PyStr (isoformat now));
            review_count := Some (rc + 1);
            consecutive_correct :=
              Some (if 3 <=? q then get (consecutive_correct st) 0 + 1 else 0);
            consecutive_incorrect :=
              Some (if 3 <=? q then 0
                    else get (consecutive_incorrect st) 0 + 1);
            status :=
              if (4 <=? q) && (3 <=? rc) then Some "known"%string
              else if 3 <=? q then Some "learning"%string
              else if q <? 3 then Some "unknown"%string
              else status st |}.
Proof.
  intros Hq Hd EF ivl rc. unfold update_word_progress.
  rewrite (calculate_next_review_eq _ _ _ _ Hq).
  fold EF ivl rc. unfold review_defined in Hd. fold EF ivl rc in Hd.
  destruct (if q <? 3 then _ else _) as [n|e] eqn:E.
  - exists n. split; reflexivity.
  - exfalso. destruct (q <? 3); [discriminate|].
    destruct (rc =? 0); [discriminate|]. destruct (rc =? 1); [discriminate|].
    rewrite E in Hd. discriminate.
Qed.

(** An undefined review raises the error of [int(interval * new_easiness)]. *)
Lemma update_word_progress_undefined (st : progress_dict) (q : Z) :
  Z.abs (5 - q) < 2 ^ 53 ->
  review_defined st q = false ->
  exists e,
    grown_interval (get (interval st) MIN_INTERVAL)
      (spec_easiness q (get (easiness st) INITIAL_EASINESS)) = Raise e /\
    update_word_progress isoformat now st q = Raise e /\ 3 <= q.
Proof.
  intros Hq Hd. unfold update_word_progress.
  rewrite (calculate_next_review_eq _ _ _ _ Hq).
  unfold review_defined in Hd.
  destruct (Z.ltb_spec q 3); [discriminate|].
  destruct (_ =? 0); [discriminate|]. destruct (_ =? 1); [discriminate|].
  destruct (grown_interval _ _) as [n|e]; [discriminate|].
  exists e. repeat split; try reflexivity. lia.
Qed.

End UpdaterProperties.

(** C1 (amended).  The updater has no check of [quality] and no
    InvalidQuality error: whatever the integer quality, inside [0,5] or not
    (here every quality with |5 - quality| < 2^53), [update_word_progress]
    returns a state exactly when the review is defined, that is when
    quality < 3, or the prior review count is 0 or 1, or
    [int(interval * new_easiness)] has a value; the easiness it stores is
    computed from the quality as given, not from a clamped one; and the only
    failure is the error of that [int] conversion, on a path with
    quality >= 3. *)
Theorem C1_quality_is_not_validated :
  forall (isoformat : datetime -> string) (now : datetime)
         (st : progress_dict) (q : Z),
    Z.abs (5 - q) < 2 ^ 53 ->
    let EF := get (easiness st) INITIAL_EASINESS in
    (review_defined st q = true ->
     exists st', update_word_progress isoformat now st q = Ok st' /\
                 easiness st' = Some (spec_easiness q EF)) /\
    (review_defined st q = false ->
     exists e, update_word_progress isoformat now st q = Raise e /\
               grown_interval (get (interval st) MIN_INTERVAL)
                 (spec_easiness q EF) = Raise e /\
               3 <= q).
Proof.
  intros isoformat now st q Hq EF. split; intros Hd.
  - destruct (update_word_progress_defined isoformat now st q Hq Hd)
      as (n & _ & ->).
    eexists. split; reflexivity.
  - destruct (update_word_progress_undefined isoformat now st q Hq Hd)
      as (e & H1 & H2 & H3).
    exists e. auto.
Qed.

Lemma C1_quality_is_not_validated_witness :
  Z.abs (5 - 6) < 2 ^ 53 /\
  review_defined example_progress 6 = true /\
  exists st', update_word_progress example_isoformat 0 example_progress 6
              = Ok st' /\
              easiness st' = Some (spec_easiness 6 2.0).
Proof.
  split; [reflexivity|]. split; [reflexivity|].
  exact (proj1 (C1_quality_is_not_validated example_isoformat 0
                  example_progress 6 eq_refl) eq_refl).
Defined.

(** C1, as stated, fails: quality 6 and quality -1 are outside [0,5], and
    both calls return; quality 6 even raises the easiness by 0.16, more
    than the 0.1 of a quality clamped to 5. *)
Lemma C1_counterexample :
  calculate_next_review 0 6 2.5 1 0
    = Ok (2.66%float, 1, microseconds_per_day) /\
  calculate_next_review 0 (-1) 2.5 1 0
    = Ok (1.3999999999999999%float, 1, microseconds_per_day) /\
  is_ok (update_word_progress example_isoformat 0 empty_progress 6) = true.
Proof. repeat split; vm_compute; reflexivity. Qed.

(** C3.  For a valid quality the updater stores
    max(1.3, EF + (0.1 - (5 - quality) * (0.08 + (5 - quality) * 0.02))):
    the stored easiness is at least 1.3, and it is the raw value itself
    whenever that exceeds 1.3, so nothing caps it from above. *)
Theorem C3_easiness_floor_without_cap :
  forall (isoformat : datetime -> string) (now : datetime)
         (st : progress_dict) (q : Z),
    0 <= q <= 5 ->
    review_defined st q = true ->
    let EF := get (easiness st) INITIAL_EASINESS in
    let d := small_to_float (5 - q) in
    let newEF := (EF + (0.1 - d * (0.08 + d * 0.02)))%float in
    exists st' ne,
      update_word_progress isoformat now st q = Ok st' /\
      easiness st' = Some ne /\
      ne = max_float 1.3 newEF /\
      (1.3 <=? ne)%float = true /\
      ((1.3 <? newEF)%float = true -> ne = newEF).
Proof.
  intros isoformat now st q Hq Hd EF d newEF.
  assert (Hq' : Z.abs (5 - q) < 2 ^ 53) by (change (2 ^ 53) with 9007199254740992; lia).
  destruct (update_word_progress_defined isoformat now st q Hq' Hd)
    as (n & _ & ->).
  eexists. exists (max_float 1.3 newEF).
  split; [reflexivity|]. split; [reflexivity|]. split; [reflexivity|].
  split; [apply max_float_floor|].
  intros H. unfold max_float. now rewrite H.
Qed.

Lemma C3_easiness_floor_without_cap_witness :
  0 <= 5 <= 5 /\
  review_defined example_progress 5 = true /\
  exists st',
    update_word_progress example_isoformat 0 example_progress 5 = Ok st' /\
    easiness st' = Some (2.0 + (0.1 - 0 * (0.08 + 0 * 0.02)))%float.
Proof.
  split; [lia|]. split; [reflexivity|].
  destruct (C3_easiness_floor_without_cap example_isoformat 0
              example_progress 5 ltac:(lia) eq_refl)
    as (st' & ne & H1 & H2 & H3 & _ & H5).
  exists st'. split; [exact H1|].
  rewrite H2. f_equal. apply H5. reflexivity.
Defined.

(** C4.  For a valid quality the new interval is 1 when quality < 3; 1 when
    quality >= 3 and the prior review count is 0; 6 when it is 1; and, when
    it is 2 or more, floor(priorInterval * newEF), the product being the
    binary64 one; in every case the stored interval is the value clamped
    into [1, 365]. *)
Theorem C4_interval_rule :
  forall (isoformat : datetime -> string) (now : datetime)
         (st : progress_dict) (q : Z),
    0 <= q <= 5 ->
    review_defined st q = true ->
    let rc := get (review_count st) 0 in
    let ivl := get (interval st) MIN_INTERVAL in
    let newEF := spec_easiness q (get (easiness st) INITIAL_EASINESS) in
    exists st' n,
      update_word_progress isoformat now st q = Ok st' /\
      interval st' = Some n /\
      1 <= n <= 365 /\
      (q < 3 -> n = 1) /\
      (3 <= q -> rc = 0 -> n = 1) /\
      (3 <= q -> rc = 1 -> n = 6) /\
      (3 <= q -> 2 <= rc ->
       exists fi p, int_to_float ivl = Ok fi /\
                    float_floor (fi * newEF) = Some p /\
                    n = Z.max 1 (Z.min 365 p)).
Proof.
  intros isoformat now st q Hq Hd rc ivl newEF.
  assert (Hq' : Z.abs (5 - q) < 2 ^ 53)
    by (change (2 ^ 53) with 9007199254740992; lia).
  destruct (update_word_progress_defined isoformat now st q Hq' Hd)
    as (n & Hn & ->).
  fold rc ivl newEF in Hn.
  eexists. exists (Z.max 1 (Z.min 365 n)).
  split; [reflexivity|]. split; [reflexivity|]. split; [lia|].
  destruct (Z.ltb_spec q 3) as [Hlt|Hge].
  { injection Hn as <-. repeat split; intros; try reflexivity; lia. }
  destruct (Z.eqb_spec rc 0) as [H0|H0].
  { injection Hn as <-. repeat split; intros; try reflexivity; lia. }
  destruct (Z.eqb_spec rc 1) as [H1|H1].
  { injection Hn as <-. repeat split; intros; try reflexivity; lia. }
  repeat split; intros; try lia.
  unfold grown_interval in Hn.
  destruct (int_to_float ivl) as [fi|e]; [|discriminate]. cbn [bind] in Hn.
  destruct (float_floor_defined _ _ Hn) as (p & Hp).
  exists fi, p. repeat split; [exact Hp|].
  exact (clamp_trunc_floor _ _ _ Hn Hp).
Qed.

Lemma C4_interval_rule_witness :
  0 <= 5 <= 5 /\
  review_defined example_progress 5 = true /\
  exists st',
    update_word_progress example_isoformat 0 example_progress 5 = Ok st' /\
    interval st' = Some 21.
Proof.
  split; [lia|]. split; [reflexivity|].
  destruct (C4_interval_rule example_isoformat 0 example_progress 5
              ltac:(lia) eq_refl)
    as (st' & n & H1 & H2 & _ & _ & _ & _ & H7).
  exists st'. split; [exact H1|]. rewrite H2.
  destruct (H7 ltac:(lia) ltac:(simpl; lia)) as (fi & p & Hfi & Hp & ->).
  injection Hfi as <-. injection Hp as <-. reflexivity.
Defined.

(** C5.  The new status is decided on the review count before the
    increment: "known" exactly when quality >= 4 and that count is at least
    3; otherwise "learning" exactly when quality >= 3; otherwise
    "unknown"; the prior status plays no part. *)
Theorem C5_status_rule :
  forall (isoformat : datetime -> string) (now : datetime)
         (st : progress_dict) (q : Z),
    0 <= q <= 5 ->
    review_defined st q = true ->
    let rc := get (review_count st) 0 in
    exists st' s,
      update_word_progress isoformat now st q = Ok st' /\
      status st' = Some s /\
      (s = "known"%string <-> 4 <= q /\ 3 <= rc) /\
      (s = "learning"%string <-> 3 <= q /\ ~ (4 <= q /\ 3 <= rc)) /\
      (s = "unknown"%string <-> q < 3).
Proof.
  intros isoformat now st q Hq Hd rc.
  assert (Hq' : Z.abs (5 - q) < 2 ^ 53)
    by (change (2 ^ 53) with 9007199254740992; lia).
  destruct (update_word_progress_defined isoformat now st q Hq' Hd)
    as (n & _ & ->).
  fold rc. cbn [status].
  destruct (Z.leb_spec 4 q), (Z.leb_spec 3 rc), (Z.leb_spec 3 q),
    (Z.ltb_spec q 3); cbn [andb]; try lia;
    eexists; eexists; (split; [reflexivity|]); (split; [reflexivity|]);
    repeat split; intros; try discriminate; try lia.
Qed.

Lemma C5_status_rule_witness :
  0 <= 5 <= 5 /\
  review_defined empty_progress 5 = true /\
  exists st',
    update_word_progress example_isoformat 0 empty_progress 5 = Ok st' /\
    status st' = Some "learning"%string.
Proof.
  split; [lia|]. split; [reflexivity|].
  destruct (C5_status_rule example_isoformat 0 empty_progress 5
              ltac:(lia) eq_refl)
    as (st' & s & H1 & H2 & _ & H4 & _).
  exists st'. split; [exact H1|]. rewrite H2. f_equal.
  apply H4. simpl. lia.
Defined.

(** C6.  Every review that returns counts one more review, adds one to the
    counter of its side and zeroes the other: consecutive_correct for
    quality >= 3, consecutive_incorrect otherwise; so one of the two
    counters is 0 afterwards. *)
Theorem C6_counters :
  forall (isoformat : datetime -> string) (now : datetime)
         (st : progress_dict) (q : Z),
    Z.abs (5 - q) < 2 ^ 53 ->
    review_defined st q = true ->
    exists st' cc ci,
      update_word_progress isoformat now st q = Ok st' /\
      review_count st' = Some (get (review_count st) 0 + 1) /\
      consecutive_correct st' = Some cc /\
      consecutive_incorrect st' = Some ci /\
      (3 <= q -> cc = get (consecutive_correct st) 0 + 1 /\ ci = 0) /\
      (q < 3 -> ci = get (consecutive_incorrect st) 0 + 1 /\ cc = 0) /\
      (cc = 0 \/ ci = 0).
Proof.
  intros isoformat now st q Hq Hd.
  destruct (update_word_progress_defined isoformat now st q Hq Hd)
    as (n & _ & ->).
  cbn [review_count consecutive_correct consecutive_incorrect].
  destruct (Z.leb_spec 3 q);
    eexists; eexists; eexists; (split; [reflexivity|]);
    repeat (split; [reflexivity|]); repeat split; intros; try lia; auto.
Qed.

Lemma C6_counters_witness :
  Z.abs (5 - 0) < 2 ^ 53 /\
  review_defined example_progress 0 = true /\
  exists st',
    update_word_progress example_isoformat 0 example_progress 0 = Ok st' /\
    review_count st' = Some 5 /\
    consecutive_correct st' = Some 0 /\
    consecutive_incorrect st' = Some 1.
Proof.
  split; [reflexivity|]. split; [reflexivity|].
  destruct (C6_counters example_isoformat 0 example_progress 0
              eq_refl eq_refl)
    as (st' & cc & ci & H1 & H2 & H3 & H4 & _ & H6 & _).
  exists st'. split; [exact H1|]. split; [exact H2|].
  destruct (H6 ltac:(lia)) as [-> ->]. split; assumption.
Defined.

(** ** The sort *)

Section SortProperties.

Variable A : Type.
Implicit Types (x : float * A) (l : list (float * A)).

Lemma insert_by_key_perm x l : Permutation (insert_by_key x l) (x :: l).
Proof.
  induction l as [|y l IH]; simpl; [reflexivity|].
  destruct (fst x <? fst y)%float; [|reflexivity].
  rewrite IH. apply perm_swap.
Qed.

Lemma sort_reverse_perm l : Permutation (sort_reverse l) l.
Proof.
  induction l as [|x l IH]; simpl; [reflexivity|].
  rewrite insert_by_key_perm. now apply perm_skip.
Qed.

Lemma sort_reverse_length l : List.length (sort_reverse l) = List.length l.
Proof. apply Permutation_length, sort_reverse_perm. Qed.

Lemma insert_by_key_descending x l :
  is_nan (fst x) = false ->
  Forall (fun e => is_nan (fst e) = false) l ->
  descending l -> descending (insert_by_key x l).
Proof.
  intros Hx Hl Hs. induction Hs as [|y l Hs IH Hy]; simpl.
  - repeat constructor.
  - inversion Hl as [|? ? Hny Hl']; subst.
    destruct (fst x <? fst y)%float eqn:E.
    + constructor; [now apply IH|].
      apply (Permutation_Forall (Permutation_sym (insert_by_key_perm x l))).
      constructor; [now apply ltb_leb | exact Hy].
    + assert (Hyx : (fst y <=? fst x)%float = true) by now apply not_ltb_leb.
      constructor; [now constructor|].
      constructor; [exact Hyx|].
      eapply Forall_impl; [|exact Hy]. intros z Hz. simpl in Hz.
      now apply leb_trans with (fst y).
Qed.

Lemma sort_reverse_descending l :
  Forall (fun e => is_nan (fst e) = false) l -> descending (sort_reverse l).
Proof.
  induction 1 as [|x l Hx Hl IH]; simpl; [constructor|].
  apply insert_by_key_descending; [exact Hx| |exact IH].
  apply (Permutation_Forall (Permutation_sym (sort_reverse_perm l))), Hl.
Qed.

Lemma insert_by_key_stable (k : float) x l :
  with_priority k (insert_by_key x l) = with_priority k (x :: l).
Proof.
  unfold with_priority. induction l as [|y l IH]; [reflexivity|].
  cbn [insert_by_key]. destruct (fst x <? fst y)%float eqn:E; [|reflexivity].
  cbn [filter] in *. rewrite IH.
  destruct (fst x =? k)%float eqn:Ex; [|reflexivity].
  now rewrite (eqb_ltb_neq _ _ _ Ex E).
Qed.

Lemma sort_reverse_stable (k : float) l :
  with_priority k (sort_reverse l) = with_priority k l.
Proof.
  induction l as [|x l IH]; [reflexivity|].
  cbn [sort_reverse fold_right]. fold (sort_reverse l).
  rewrite insert_by_key_stable. unfold with_priority in *. cbn [filter].
  now rewrite IH.
Qed.

(** In a descending list nothing behind an entry has a greater priority. *)
Lemma descending_app_inv l1 l2 x y :
  descending (l1 ++ x :: l2) -> In y l2 -> (fst x <? fst y)%float = false.
Proof.
  intros Hs Hy. induction l1 as [|z l1 IH]; simpl in Hs.
  - inversion Hs as [|? ? _ Hall]; subst.
    rewrite Forall_forall in Hall. specialize (Hall _ Hy). simpl in Hall.
    destruct (fst x <? fst y)%float eqn:E; [|reflexivity].
    apply ltb_not_leb in E. congruence.
  - inversion Hs; subst. now apply IH.
Qed.

End SortProperties.

(** ** The review selector *)

Lemma get_priority_score_unseen (now : datetime) (nr : option pydatetime)
    (EF : float) (st : string) :
  get_priority_score now nr 0 EF st = Ok 1000%float.
Proof. reflexivity. Qed.

(** Without a next review the score has no term for a due word. *)
Lemma get_priority_score_null (now : datetime) (rc : Z) (EF : float)
    (st : string) :
  rc <> 0 ->
  get_priority_score now None rc EF st =
    (count <- int_to_float rc ;;
     let base := (0 + (3.0 - EF) * 5.0)%float in
     let base :=
       if String.eqb st "unknown" then (base + 50.0)%float
       else if String.eqb st "learning" then (base + 25.0)%float
       else base in
     Ok (base - count * 0.1)%float).
Proof.
  intros H. unfold get_priority_score.
  destruct (Z.eqb_spec rc 0); [contradiction | reflexivity].
Qed.

Section SelectorProperties.

Variable fromisoformat : string -> option pydatetime.
Variable now : datetime.

(** The [try] of lines 187-190 catches everything [fromisoformat] raises. *)
Lemma load_next_review_unparseable (v : option pyval) :
  unparseable fromisoformat v = true ->
  load_next_review fromisoformat v = Ok None.
Proof.
  destruct v as [x|]; [|reflexivity]. simpl. intros H.
  destruct (truthy x); [|reflexivity].
  destruct x as [ |b|n|f|s]; try reflexivity.
  simpl in *. destruct (fromisoformat s); [discriminate | reflexivity].
Qed.

Lemma load_next_review_total (v : option pyval) :
  exists r, load_next_review fromisoformat v = Ok r.
Proof.
  destruct v as [x|]; [|simpl; eauto]. simpl.
  destruct (truthy x); [|eauto].
  destruct x as [ |b|n|f|s]; simpl; eauto.
  destruct (fromisoformat s); eauto.
Qed.

(** A never reviewed word scores 1000. *)
Lemma word_priority_unseen (w : word_dict) :
  reviews_of w = 0 -> word_priority fromisoformat now w = Ok 1000%float.
Proof.
  unfold reviews_of, word_priority. intros H.
  destruct (load_next_review_total
              (next_review (get (progress w) empty_progress))) as (r & ->).
  cbn [bind]. rewrite H. reflexivity.
Qed.

(** The loop of [get_words_for_review] over a pool of scorable words. *)
Lemma words_with_priority_scorable (pool : list word_dict) :
  Forall (fun w => scorable fromisoformat now w = true) pool ->
  exists scored,
    words_with_priority fromisoformat now pool = Ok scored /\
    map snd scored = pool /\
    Forall (fun e => word_priority fromisoformat now (snd e) = Ok (fst e))
      scored /\
    Forall (fun e => is_nan (fst e) = false) scored.
Proof.
  induction 1 as [|w pool Hw _ (scored & E & Hm & Hp & Hn)].
  - exists []. repeat split; constructor.
  - unfold scorable in Hw.
    destruct (word_priority fromisoformat now w) as [p|e] eqn:Ew;
      [|discriminate].
    exists ((p, w) :: scored). cbn [words_with_priority]. rewrite Ew, E.
    repeat split.
    + simpl. now rewrite Hm.
    + constructor; assumption.
    + constructor; [|assumption]. simpl.
      now destruct (is_nan p).
Qed.

End SelectorProperties.

(** C2 (amended).  For a word reviewed before whose next review
    is null, [get_priority_score] adds no term for a due word: the score is
    0.0 + (3.0 - easiness) * 5.0, plus the bonus of the status, minus
    review_count * 0.1, the same as for a word whose next review lies in the
    future. *)
Theorem C2_null_next_review_has_no_due_term :
  forall (now : datetime) (rc : Z) (EF : float) (st : string),
    rc <> 0 ->
    get_priority_score now None rc EF st =
      (count <- int_to_float rc ;;
       let base := (0 + (3.0 - EF) * 5.0)%float in
       let base :=
         if String.eqb st "unknown" then (base + 50.0)%float
         else if String.eqb st "learning" then (base + 25.0)%float
         else base in
       Ok (base - count * 0.1)%float) /\
    (forall d : datetime,
        now < d ->
        get_priority_score now (Some (Naive d)) rc EF st =
        get_priority_score now None rc EF st).
Proof.
  intros now rc EF st Hrc. split; [now apply get_priority_score_null|].
  intros d Hd. unfold get_priority_score, is_due_for_review, now_ge.
  cbn [bind]. destruct (Z.leb_spec d now); [lia | reflexivity].
Qed.

Lemma C2_null_next_review_has_no_due_term_witness :
  1 <> 0 /\
  get_priority_score 0 None 1 2.5 "known" =
    Ok (0 + (3.0 - 2.5) * 5.0 - 1 * 0.1)%float.
Proof.
  split; [discriminate|].
  exact (proj1 (C2_null_next_review_has_no_due_term 0 1 2.5 "known"
                  ltac:(discriminate))).
Defined.

(** C2, as stated, fails: reviewed once, null next review, the score is
    2.4 and not the 102.4 of the same word due now. *)
Lemma C2_counterexample :
  get_priority_score 0 None 1 2.5 "known" = Ok 2.3999999999999999%float /\
  get_priority_score 0 (Some (Naive 0)) 1 2.5 "known"
    = Ok 102.40000000000001%float.
Proof. split; vm_compute; reflexivity. Qed.

(** C7.  A word never reviewed scores exactly 1000.0 whatever its next
    review, easiness and status; and the selector cuts its result from a
    ranking of the whole pool in which every never reviewed word stands
    before any word whose priority is below 1000.0, so such a word is never
    returned without every never reviewed word of the pool ahead of it. *)
Theorem C7_unseen_words_first :
  forall (fromisoformat : string -> option pydatetime) (now : datetime),
    (forall (nr : option pydatetime) (EF : float) (st : string),
        get_priority_score now nr 0 EF st = Ok 1000%float) /\
    (forall pool : list word_dict,
        Forall (fun w => scorable fromisoformat now w = true) pool ->
        exists ranked : list word_dict,
          Permutation ranked pool /\
          (forall max_words : Z,
              get_words_for_review fromisoformat now pool max_words
              = Ok (slice_to ranked max_words)) /\
          (forall (a b : word_dict) (pb : float),
              In a pool -> reviews_of a = 0 ->
              word_priority fromisoformat now b = Ok pb ->
              (pb <? 1000)%float = true ->
              (forall l1 l2, ranked = l1 ++ b :: l2 -> In a l1) /\
              (forall max_words l1 l2,
                  slice_to ranked max_words = l1 ++ b :: l2 -> In a l1))).
Proof.
  intros fromisoformat now. split; [intros; reflexivity|].
  intros pool Hpool.
  destruct (words_with_priority_scorable fromisoformat now pool Hpool)
    as (scored & E & Hm & Hp & Hn).
  set (rk := sort_reverse scored).
  assert (Hr : Forall (fun e => word_priority fromisoformat now (snd e)
                                = Ok (fst e)) rk).
  { apply (Permutation_Forall (Permutation_sym (sort_reverse_perm _ scored))).
    exact Hp. }
  assert (Hsorted : descending rk) by now apply sort_reverse_descending.
  exists (map snd rk). split.
  { rewrite <- Hm. apply Permutation_map, sort_reverse_perm. }
  split.
  { intros max_words. unfold get_words_for_review. rewrite E. cbn [bind].
    fold rk. f_equal. unfold slice_to. rewrite length_map.
    destruct (max_words <? 0); now rewrite firstn_map. }
  intros a b pb Ha Hrc Hb Hlt.
  pose proof (word_priority_unseen fromisoformat now a Hrc) as Hpa.
  assert (Hin0 : In a (map snd rk)).
  { apply (Permutation_in a (Permutation_map snd
                               (Permutation_sym (sort_reverse_perm _ scored)))).
    now rewrite Hm. }
  (* in every prefix of the ranking *)
  assert (Hprefix : forall n l1 l2,
             firstn n (map snd rk) = l1 ++ b :: l2 -> In a l1).
  { intros n l1 l2 Hout. rewrite firstn_map in Hout.
    pose proof Hsorted as Hs. pose proof Hin0 as Hin. pose proof Hr as Hr'.
    rewrite <- (firstn_skipn n rk) in Hs, Hin, Hr'.
    destruct (map_eq_app _ _ _ _ Hout) as (r1 & r2' & E1 & <- & E2).
    destruct r2' as [|eb r2]; [discriminate|].
    injection E2 as <- <-.
    rewrite E1 in Hs, Hin, Hr'.
    rewrite <- app_assoc in Hs, Hin, Hr'.
    assert (Hpb : fst eb = pb).
    { apply Forall_app in Hr'. destruct Hr' as [_ Hr'].
      inversion Hr' as [|? ? Hx _]; subst. rewrite Hb in Hx. congruence. }
    rewrite map_app in Hin. apply in_app_or in Hin.
    destruct Hin as [Hin|Hin]; [exact Hin|]. exfalso.
    cbn [app map] in Hin. destruct Hin as [Hin|Hin].
    - (* a is b: 1000 < 1000 *)
      rewrite Hin, Hpa in Hb. injection Hb as <-. discriminate.
    - (* a stands behind b *)
      apply in_map_iff in Hin. destruct Hin as (ea & <- & Hin).
      pose proof (descending_app_inv _ _ _ _ _ Hs Hin) as Hd.
      assert (Hea : fst ea = 1000%float).
      { rewrite Forall_forall in Hr'.
        assert (Hx : word_priority fromisoformat now (snd ea) = Ok (fst ea)).
        { apply Hr'. apply in_or_app. right. right. exact Hin. }
        rewrite Hpa in Hx. congruence. }
      rewrite Hpb, Hea in Hd. congruence. }
  split.
  - intros l1 l2 Hrk. apply (Hprefix (List.length (map snd rk)) l1 l2).
    now rewrite firstn_all.
  - intros max_words l1 l2. unfold slice_to.
    destruct (max_words <? 0); apply Hprefix.
Qed.

Lemma example_pool_scorable :
  Forall (fun w => scorable example_fromisoformat 0 w = true) example_pool.
Proof. repeat constructor. Defined.

Lemma C7_unseen_words_first_witness :
  Forall (fun w => scorable example_fromisoformat 0 w = true) example_pool /\
  exists ranked,
    Permutation ranked example_pool /\
    get_words_for_review example_fromisoformat 0 example_pool 2
      = Ok (slice_to ranked 2) /\
    map word (slice_to ranked 2) = ["unseen"; "overdue"]%string /\
    forall l1 l2,
      slice_to ranked 2
        = l1 ++ example_word "overdue" 2 (Some (PyStr "-432000000001")) :: l2 ->
      In (example_word "unseen" 0 None) l1.
Proof.
  split; [exact example_pool_scorable|].
  destruct (proj2 (C7_unseen_words_first example_fromisoformat 0)
              example_pool example_pool_scorable) as (ranked & Hperm & Hout & H).
  exists ranked. split; [exact Hperm|]. split; [apply Hout|].
  split.
  { pose proof (Hout 2) as H2.
    assert (E : get_words_for_review example_fromisoformat 0 example_pool 2
                = Ok [example_word "unseen" 0 None;
                      example_word "overdue" 2
                        (Some (PyStr "-432000000001"))])
      by (vm_compute; reflexivity).
    rewrite E in H2. injection H2 as H2. rewrite <- H2. reflexivity. }
  intros l1 l2.
  refine (proj2 (H (example_word "unseen" 0 None)
                   (example_word "overdue" 2 (Some (PyStr "-432000000001")))
                   177.30000000000001%float _ _ _ _) 2 l1 l2).
  - right. right. left. reflexivity.
  - reflexivity.
  - vm_compute. reflexivity.
  - reflexivity.
Defined.





(** C9.  A word whose stored next review is missing or does not parse is
    scored as a word whose next review is null, and scoring it raises
    nothing; a pool of such words is always ranked, and every word of it is
    returned when [max_words] allows.  (Review counts are below 2^1023 in
    absolute value: the counts a float can hold.) *)
Theorem C9_unparseable_next_review_is_null :
  forall (fromisoformat : string -> option pydatetime) (now : datetime),
    (forall w : word_dict,
        unparseable fromisoformat (stored_next_review w) = true ->
        Z.abs (reviews_of w) < 2 ^ 1023 ->
        exists p,
          word_priority fromisoformat now w = Ok p /\
          get_priority_score now None (reviews_of w) (easiness_of w)
            (status_of w) = Ok p) /\
    (forall (pool : list word_dict) (max_words : Z),
        Forall (fun w =>
                  unparseable fromisoformat (stored_next_review w) = true /\
                  Z.abs (reviews_of w) < 2 ^ 1023) pool ->
        exists out,
          get_words_for_review fromisoformat now pool max_words = Ok out /\
          (Z.of_nat (List.length pool) <= max_words -> Permutation out pool)).
Proof.
  intros fromisoformat now.
  assert (Hone : forall w : word_dict,
             unparseable fromisoformat (stored_next_review w) = true ->
             Z.abs (reviews_of w) < 2 ^ 1023 ->
             exists p,
               word_priority fromisoformat now w = Ok p /\
               get_priority_score now None (reviews_of w) (easiness_of w)
                 (status_of w) = Ok p).
  { intros w Hu Hr. unfold word_priority.
    fold (stored_next_review w).
    rewrite (load_next_review_unparseable _ _ Hu). cbn [bind].
    fold (reviews_of w) (easiness_of w) (status_of w).
    destruct (Z.eq_dec (reviews_of w) 0) as [-> | Hrc].
    - exists 1000%float. split; reflexivity.
    - rewrite (get_priority_score_null _ _ _ _ Hrc).
      destruct (int_to_float_in_range _ Hr) as (f & ->). cbn [bind].
      eexists. split; reflexivity. }
  split; [exact Hone|].
  intros pool max_words Hpool.
  assert (Hs : exists scored,
             words_with_priority fromisoformat now pool = Ok scored /\
             map snd scored = pool).
  { induction Hpool as [|w pool [Hu Hr] _ (scored & E & Hm)].
    - exists []. split; reflexivity.
    - destruct (Hone w Hu Hr) as (p & Hp & _).
      exists ((p, w) :: scored). cbn [words_with_priority].
      rewrite Hp, E. split; [reflexivity|]. simpl. now rewrite Hm. }
  destruct Hs as (scored & E & Hm).
  unfold get_words_for_review. rewrite E. cbn [bind].
  eexists. split; [reflexivity|].
  intros Hk. unfold slice_to.
  destruct (Z.ltb_spec max_words 0); [lia|].
  rewrite firstn_all2.
  - rewrite <- Hm. apply Permutation_map, sort_reverse_perm.
  - rewrite sort_reverse_length, <- (length_map snd scored), Hm. lia.
Qed.

Lemma C9_unparseable_next_review_is_null_witness :
  Forall (fun w =>
            unparseable example_fromisoformat (stored_next_review w) = true /\
            Z.abs (reviews_of w) < 2 ^ 1023) example_unparseable_pool /\
  exists out,
    get_words_for_review example_fromisoformat 0 example_unparseable_pool 4
      = Ok out /\
    Permutation out example_unparseable_pool.
Proof.
  assert (H : Forall (fun w =>
            unparseable example_fromisoformat (stored_next_review w) = true /\
            Z.abs (reviews_of w) < 2 ^ 1023) example_unparseable_pool)
    by (repeat constructor).
  split; [exact H|].
  destruct (proj2 (C9_unparseable_next_review_is_null example_fromisoformat 0)
              example_unparseable_pool 4 H) as (out & Hout & Hperm).
  exists out. split; [exact Hout|]. apply Hperm. simpl. lia.
Defined.

(** ** The scenarios of the spec *)

Example scenario_A :
  calculate_next_review 0 5 2.5 1 0 = Ok (2.6%float, 1, microseconds_per_day).
Proof. vm_compute. reflexivity. Qed.

Example scenario_B :
  calculate_next_review 0 5 2.5 6 1
    = Ok (2.6%float, 6, 6 * microseconds_per_day).
Proof. vm_compute. reflexivity. Qed.

Example scenario_C :
  option_map (fun st' => (easiness st', interval st', status st'))
    (match update_word_progress example_isoformat 0 example_progress 0 with
     | Ok st' => Some st'
     | Raise _ => None
     end)
  = Some (Some 1.3%float, Some 1, Some "unknown"%string).
Proof. vm_compute. reflexivity. Qed.

Example scenario_D :
  option_map (map word)
    (match get_words_for_review example_fromisoformat 0 example_pool 2 with
     | Ok out => Some out
     | Raise _ => None
     end)
  = Some ["unseen"%string; "overdue"%string].
Proof. vm_compute. reflexivity. Qed.

(** Ties keep the order of the pool: "later" and "garbled" score alike. *)
Example scenario_ties :
  option_map (map word)
    (match get_words_for_review example_fromisoformat 0 example_pool 4 with
     | Ok out => Some out
     | Raise _ => None
     end)
  = Some ["unseen"%string; "overdue"%string; "later"%string;
          "garbled"%string].
Proof. vm_compute. reflexivity. Qed.

(** [int(interval * new_easiness)] is the one place where a review can
    raise: an infinite easiness has no integer part. *)
Example review_of_infinite_easiness :
  calculate_next_review 0 5 infinity 10 2 = Raise OverflowError.
Proof. vm_compute. reflexivity. Qed.

(** * Further properties of the scheduler *)

(** ** The review updater *)

(** X1.  A review with quality below 3 always returns, whatever easiness and
    interval are stored (NaN and the infinities included), and resets the
    word: interval 1, next review one day after [now], status "unknown",
    no consecutive correct answer, one more consecutive incorrect one. *)
Theorem X1_lapse_always_resets :
  forall (isoformat : datetime -> string) (now : datetime)
         (st : progress_dict) (q : Z),
    Z.abs (5 - q) < 2 ^ 53 ->
    q < 3 ->
    update_word_progress isoformat now st q =
      Ok {| status := Some "unknown"%string;
            review_count := Some (get (review_count st) 0 + 1);
            easiness :=
              Some (spec_easiness q (get (easiness st) INITIAL_EASINESS));
            interval := Some 1;
            next_review := Some (PyStr (isoformat (now + microseconds_per_day)));
            last_review := Some (PyStr (isoformat now));
            consecutive_correct := Some 0;
            consecutive_incorrect :=
              Some (get (consecutive_incorrect st) 0 + 1) |}.
Proof.
  intros isoformat now st q Hq Hlt.
  assert (Hd : review_defined st q = true).
  { unfold review_defined. destruct (Z.ltb_spec q 3); [reflexivity | lia]. }
  destruct (update_word_progress_defined isoformat now st q Hq Hd)
    as (n & Hn & ->).
  destruct (Z.ltb_spec q 3); [|lia]. injection Hn as <-.
  destruct (Z.leb_spec 3 q); [lia|]. destruct (Z.leb_spec 4 q); [lia|].
  reflexivity.
Qed.

Lemma X1_lapse_always_resets_witness :
  Z.abs (5 - 1) < 2 ^ 53 /\ 1 < 3 /\
  update_word_progress example_isoformat 0
    {| status := Some "known"%string; review_count := Some 7;
       easiness := Some nan; interval := Some 400;
       next_review := None; last_review := None;
       consecutive_correct := Some 7; consecutive_incorrect := None |} 1 =
    Ok {| status := Some "unknown"%string; review_count := Some 8;
          easiness := Some 1.3%float; interval := Some 1;
          next_review := Some (PyStr "86400000000");
          last_review := Some (PyStr "0");
          consecutive_correct := Some 0; consecutive_incorrect := Some 1 |}.
Proof.
  split; [reflexivity|]. split; [reflexivity|].
  exact (X1_lapse_always_resets example_isoformat 0 _ 1 eq_refl eq_refl).
Defined.

(** X2.  A review reads the stored dictionary only through easiness,
    interval, review_count and the two streak counters, each with its
    default when the key is missing: two dictionaries that agree on these
    five readings give the same result, whatever their status and their
    timestamps, for every quality. *)
Theorem X2_review_reads_five_keys :
  forall (isoformat : datetime -> string) (now : datetime)
         (st1 st2 : progress_dict) (q : Z),
    get (easiness st1) INITIAL_EASINESS = get (easiness st2) INITIAL_EASINESS ->
    get (interval st1) MIN_INTERVAL = get (interval st2) MIN_INTERVAL ->
    get (review_count st1) 0 = get (review_count st2) 0 ->
    get (consecutive_correct st1) 0 = get (consecutive_correct st2) 0 ->
    get (consecutive_incorrect st1) 0 = get (consecutive_incorrect st2) 0 ->
    update_word_progress isoformat now st1 q =
    update_word_progress isoformat now st2 q.
Proof.
  intros isoformat now st1 st2 q He Hi Hr Hc Hn.
  unfold update_word_progress. rewrite He, Hi, Hr, Hc, Hn.
  destruct (calculate_next_review _ _ _ _ _) as [[[ne ni] nr]|e];
    [|reflexivity].
  cbn [bind]. do 2 f_equal.
  destruct (Z.leb_spec 3 q), (Z.ltb_spec q 3); try lia;
    destruct (4 <=? q), (3 <=? get (review_count st2) 0); reflexivity.
Qed.

Lemma X2_review_reads_five_keys_witness :
  update_word_progress example_isoformat 0 empty_progress 4 =
  update_word_progress example_isoformat 0
    {| status := Some "known"%string; review_count := Some 0;
       easiness := Some 2.5%float; interval := Some 1;
       next_review := Some (PyStr "soon"); last_review := Some PyNone;
       consecutive_correct := None; consecutive_incorrect := Some 0 |} 4.
Proof.
  apply X2_review_reads_five_keys; reflexivity.
Defined.

(** The example rendering reads back. *)
Lemma example_codec_round_trip (d : datetime) :
  example_fromisoformat (example_isoformat d) = Some (Naive d).
Proof.
  unfold example_fromisoformat, example_isoformat.
  rewrite NilZero.isi.
  - simpl. now rewrite DecimalZ.of_to.
  - destruct d; simpl; try discriminate.
    intros [= H]. now apply DecimalPos.Unsigned.to_uint_nonnil in H.
  - destruct d; simpl; try discriminate.
    intros [= H]. now apply DecimalPos.Unsigned.to_uint_nonnil in H.
Qed.

Lemma example_isoformat_nonempty (d : datetime) :
  example_isoformat d <> ""%string.
Proof.
  intros H. pose proof (example_codec_round_trip d) as R.
  rewrite H in R. discriminate.
Qed.

(** Without a due date in the past the score has no term for a due word. *)
Lemma get_priority_score_not_due (t nr : datetime) (rc : Z) (EF : float)
    (s : string) :
  t < nr ->
  get_priority_score t (Some (Naive nr)) rc EF s
  = get_priority_score t None rc EF s.
Proof.
  intros H. unfold get_priority_score, is_due_for_review, now_ge.
  destruct (rc =? 0); [reflexivity|]. cbn [bind].
  destruct (Z.leb_spec nr t); [lia | reflexivity].
Qed.

(** X3.  Updater and selector compose: when [fromisoformat] reads back what
    [isoformat] writes, the next review a review stores lies between one and
    365 days after [now], so until one day has passed the word is not due
    and the selector scores it without the term for due words. *)
Theorem X3_reviewed_word_is_not_due :
  forall (isoformat : datetime -> string)
         (fromisoformat : string -> option pydatetime)
         (now : datetime) (st : progress_dict) (q : Z) (w : string),
    (forall d, fromisoformat (isoformat d) = Some (Naive d)) ->
    (forall d, isoformat d <> ""%string) ->
    Z.abs (5 - q) < 2 ^ 53 ->
    review_defined st q = true ->
    exists st' nr,
      update_word_progress isoformat now st q = Ok st' /\
      load_next_review fromisoformat (next_review st')
        = Ok (Some (Naive nr)) /\
      now + microseconds_per_day <= nr <= now + 365 * microseconds_per_day /\
      forall t : datetime,
        t < now + microseconds_per_day ->
        let word_data := {| word := w; progress := Some st' |} in
        is_due_for_review t (Some (Naive nr)) = Ok false /\
        word_priority fromisoformat t word_data =
          get_priority_score t None (reviews_of word_data)
            (easiness_of word_data) (status_of word_data).
Proof.
  intros isoformat fromisoformat now st q w Hrt Hne Hq Hd.
  destruct (update_word_progress_defined isoformat now st q Hq Hd)
    as (n & _ & ->).
  set (m := Z.max 1 (Z.min 365 n)).
  assert (Hm : 1 <= m <= 365) by (subst m; lia).
  eexists. exists (now + timedelta_days m).
  split; [reflexivity|].
  assert (Hload :
    load_next_review fromisoformat
      (Some (PyStr (isoformat (now + timedelta_days m))))
    = Ok (Some (Naive (now + timedelta_days m)))).
  { cbn [load_next_review truthy datetime_fromisoformat].
    destruct (String.eqb_spec (isoformat (now + timedelta_days m)) "")
      as [E|_]; [now apply Hne in E|].
    cbn [negb]. now rewrite Hrt. }
  split; [exact Hload|].
  unfold timedelta_days, microseconds_per_day in *.
  split; [lia|].
  intros t Ht. cbv zeta. split.
  - unfold is_due_for_review, now_ge.
    destruct (Z.leb_spec (now + m * 86400000000) t); [lia | reflexivity].
  - unfold word_priority. cbn [progress get next_review].
    unfold timedelta_days, microseconds_per_day. rewrite Hload. cbn [bind].
    apply get_priority_score_not_due. lia.
Qed.

Lemma X3_reviewed_word_is_not_due_witness :
  (forall d, example_fromisoformat (example_isoformat d) = Some (Naive d)) /\
  (forall d, example_isoformat d <> ""%string) /\
  Z.abs (5 - 5) < 2 ^ 53 /\
  review_defined example_progress 5 = true /\
  exists st' nr,
    update_word_progress example_isoformat 0 example_progress 5 = Ok st' /\
    load_next_review example_fromisoformat (next_review st')
      = Ok (Some (Naive nr)) /\
    is_due_for_review 0 (Some (Naive nr)) = Ok false.
Proof.
  split; [exact example_codec_round_trip|].
  split; [exact example_isoformat_nonempty|].
  split; [reflexivity|]. split; [reflexivity|].
  destruct (X3_reviewed_word_is_not_due example_isoformat
              example_fromisoformat 0 example_progress 5 "word"
              example_codec_round_trip example_isoformat_nonempty
              eq_refl eq_refl) as (st' & nr & H1 & H2 & _ & H4).
  exists st', nr. split; [exact H1|]. split; [exact H2|].
  apply (H4 0). reflexivity.
Defined.

(** ** The review selector *)

Lemma leb_refl (a : float) : is_nan a = false -> (a <=? a)%float = true.
Proof. intros H. to_ranks. Qed.

Lemma leb_neq_ltb (a b : float) :
  (a <=? b)%float = true -> (a =? b)%float = false -> (a <? b)%float = true.
Proof. intros H1 H2. to_ranks. Qed.

Lemma eqb_refl (a : float) : is_nan a = false -> (a =? a)%float = true.
Proof. intros H. to_ranks. Qed.

(** A list already in decreasing order is left as it is. *)
Lemma sort_reverse_descending_fixed {A : Type} (l : list (float * A)) :
  descending l -> sort_reverse l = l.
Proof.
  induction 1 as [|x l Hs IH Hx]; [reflexivity|].
  cbn [sort_reverse fold_right]. fold (sort_reverse l). rewrite IH.
  destruct l as [|y l']; [reflexivity|]. cbn [insert_by_key].
  inversion Hx as [|? ? Hy _]; subst. simpl in Hy.
  destruct (fst x <? fst y)%float eqn:E; [|reflexivity].
  apply ltb_not_leb in E. congruence.
Qed.

(** The first element a filter keeps, and what stands before it. *)
Lemma filter_head_split {A : Type} (f : A -> bool) (l : list A) (x : A)
    (t : list A) :
  filter f l = x :: t ->
  exists l1 l2, l = l1 ++ x :: l2 /\ Forall (fun y => f y = false) l1.
Proof.
  induction l as [|y l IH]; [discriminate|]. cbn [filter].
  destruct (f y) eqn:E.
  - intros [= -> <-]. exists [], l. split; [reflexivity | constructor].
  - intros H. destruct (IH H) as (l1 & l2 & -> & Hl1).
    exists (y :: l1), l2. split; [reflexivity | now constructor].
Qed.

Section SelectionProperties.

Variable fromisoformat : string -> option pydatetime.
Variable now : datetime.

(** What the loop returns pairs every word of the pool with its priority. *)
Lemma words_with_priority_inv (pool : list word_dict)
    (scored : list (float * word_dict)) :
  words_with_priority fromisoformat now pool = Ok scored ->
  map snd scored = pool /\
  Forall (fun e => word_priority fromisoformat now (snd e) = Ok (fst e)) scored.
Proof.
  revert scored. induction pool as [|w pool IH]; intros scored.
  - intros [= <-]. split; constructor.
  - cbn [words_with_priority].
    destruct (word_priority fromisoformat now w) as [p|e] eqn:Ew;
      [|discriminate]. cbn [bind].
    destruct (words_with_priority fromisoformat now pool) as [tl|e];
      [|discriminate]. cbn [bind].
    intros [= <-]. destruct (IH tl eq_refl) as [Hm Hp].
    split; [simpl; now rewrite Hm | now constructor].
Qed.

Lemma words_with_priority_scored (scored : list (float * word_dict)) :
  Forall (fun e => word_priority fromisoformat now (snd e) = Ok (fst e)) scored ->
  words_with_priority fromisoformat now (map snd scored) = Ok scored.
Proof.
  induction 1 as [|[p w] l Hp _ IH]; [reflexivity|].
  cbn [map words_with_priority snd]. simpl in Hp. rewrite Hp, IH. reflexivity.
Qed.

Lemma words_with_priority_ok (pool : list word_dict) :
  Forall (fun w => is_ok (word_priority fromisoformat now w) = true) pool ->
  exists scored, words_with_priority fromisoformat now pool = Ok scored.
Proof.
  induction 1 as [|w pool Hw _ (scored & E)]; [now exists []|].
  cbn [words_with_priority].
  destruct (word_priority fromisoformat now w) as [p|e]; [|discriminate].
  rewrite E. eexists. reflexivity.
Qed.

Lemma slice_to_prefix {A : Type} (l : list A) (stop : Z) :
  exists n, slice_to l stop = firstn n l.
Proof. unfold slice_to. destruct (stop <? 0); eauto. Qed.

End SelectionProperties.

(** X4.  The selector returns part of the pool and nothing else: when every
    word can be scored, the result together with some remainder is a
    rearrangement of the pool, for every [max_words], negative or not. *)
Theorem X4_selection_is_part_of_pool :
  forall (fromisoformat : string -> option pydatetime) (now : datetime)
         (pool : list word_dict) (max_words : Z),
    Forall (fun w => is_ok (word_priority fromisoformat now w) = true) pool ->
    exists out rest,
      get_words_for_review fromisoformat now pool max_words = Ok out /\
      Permutation (out ++ rest) pool.
Proof.
  intros fromisoformat now pool max_words Hpool.
  destruct (words_with_priority_ok fromisoformat now pool Hpool)
    as (scored & E).
  destruct (words_with_priority_inv fromisoformat now pool scored E)
    as [Hm _].
  unfold get_words_for_review. rewrite E. cbn [bind].
  destruct (slice_to_prefix (sort_reverse scored) max_words) as (n & ->).
  exists (map snd (firstn n (sort_reverse scored))),
    (map snd (skipn n (sort_reverse scored))).
  split; [reflexivity|].
  rewrite <- map_app, firstn_skipn, <- Hm.
  apply Permutation_map, sort_reverse_perm.
Qed.

Lemma X4_selection_is_part_of_pool_witness :
  Forall (fun w => is_ok (word_priority example_fromisoformat 0 w) = true)
    example_pool /\
  exists out rest,
    get_words_for_review example_fromisoformat 0 example_pool (-3) = Ok out /\
    Permutation (out ++ rest) example_pool.
Proof.
  assert (H : Forall (fun w =>
                is_ok (word_priority example_fromisoformat 0 w) = true)
                example_pool) by (repeat constructor).
  split; [exact H|].
  exact (X4_selection_is_part_of_pool example_fromisoformat 0 example_pool
           (-3) H).
Defined.

(** X5.  The selections are nested: for 0 <= k1 <= k2, the selection of k1
    words is the first k1 words of the selection of k2 words. *)
Theorem X5_selections_are_nested :
  forall (fromisoformat : string -> option pydatetime) (now : datetime)
         (pool : list word_dict) (k1 k2 : Z) (out2 : list word_dict),
    0 <= k1 <= k2 ->
    get_words_for_review fromisoformat now pool k2 = Ok out2 ->
    get_words_for_review fromisoformat now pool k1
      = Ok (firstn (Z.to_nat k1) out2).
Proof.
  intros fromisoformat now pool k1 k2 out2 Hk. unfold get_words_for_review.
  destruct (words_with_priority fromisoformat now pool) as [scored|e];
    [|discriminate]. cbn [bind]. unfold slice_to.
  destruct (Z.ltb_spec k1 0); [lia|]. destruct (Z.ltb_spec k2 0); [lia|].
  intros [= <-]. f_equal.
  rewrite firstn_map, firstn_firstn.
  f_equal. f_equal. lia.
Qed.

Lemma X5_selections_are_nested_witness :
  0 <= 1 <= 3 /\
  exists out2,
    get_words_for_review example_fromisoformat 0 example_pool 3 = Ok out2 /\
    get_words_for_review example_fromisoformat 0 example_pool 1
      = Ok (firstn 1 out2).
Proof.
  split; [lia|].
  destruct (get_words_for_review example_fromisoformat 0 example_pool 3)
    as [out2|e] eqn:E; [|discriminate E].
  exists out2. split; [reflexivity|].
  exact (X5_selections_are_nested example_fromisoformat 0 example_pool 1 3
           out2 ltac:(lia) E).
Defined.

(** X6.  The selector scores the whole pool before it cuts: a word whose
    score raises, behind words that can be scored, makes the call raise the
    same error for every [max_words], 0 included. *)
Theorem X6_unscorable_word_blocks_selection :
  forall (fromisoformat : string -> option pydatetime) (now : datetime)
         (l1 l2 : list word_dict) (w : word_dict) (e : exn) (max_words : Z),
    Forall (fun x => is_ok (word_priority fromisoformat now x) = true) l1 ->
    word_priority fromisoformat now w = Raise e ->
    get_words_for_review fromisoformat now (l1 ++ w :: l2) max_words = Raise e.
Proof.
  intros fromisoformat now l1 l2 w e max_words Hl1 Hw.
  unfold get_words_for_review.
  assert (E : words_with_priority fromisoformat now (l1 ++ w :: l2) = Raise e).
  { induction Hl1 as [|x l1 Hx _ IH]; cbn [app words_with_priority].
    - now rewrite Hw.
    - destruct (word_priority fromisoformat now x); [|discriminate].
      cbn [bind]. now rewrite IH. }
  now rewrite E.
Qed.

Lemma X6_unscorable_word_blocks_selection_witness :
  Forall (fun x => is_ok (word_priority example_fromisoformat 0 x) = true)
    [example_word "unseen" 0 None] /\
  word_priority example_fromisoformat 0 (example_word "worn" (2 ^ 1024) None)
    = Raise OverflowError /\
  get_words_for_review example_fromisoformat 0
    ([example_word "unseen" 0 None]
       ++ example_word "worn" (2 ^ 1024) None :: example_pool) 0
    = Raise OverflowError.
Proof.
  assert (H1 : Forall (fun x =>
                 is_ok (word_priority example_fromisoformat 0 x) = true)
                 [example_word "unseen" 0 None]) by (repeat constructor).
  assert (H2 : word_priority example_fromisoformat 0
                 (example_word "worn" (2 ^ 1024) None) = Raise OverflowError)
    by (vm_compute; reflexivity).
  split; [exact H1|]. split; [exact H2|].
  exact (X6_unscorable_word_blocks_selection example_fromisoformat 0
           _ example_pool _ OverflowError 0 H1 H2).
Defined.

(** X7.  The first word returned, the one the coordinator shows, has the
    greatest priority of the pool, and among the words of that priority it
    is the first of the pool: every word before it in the pool has a
    strictly smaller priority. *)
Theorem X7_first_word_is_the_best :
  forall (fromisoformat : string -> option pydatetime) (now : datetime)
         (pool : list word_dict) (max_words : Z),
    1 <= max_words ->
    pool <> [] ->
    Forall (fun w => scorable fromisoformat now w = true) pool ->
    exists w rest pw l1 l2,
      get_words_for_review fromisoformat now pool max_words = Ok (w :: rest) /\
      word_priority fromisoformat now w = Ok pw /\
      (forall x px, In x pool -> word_priority fromisoformat now x = Ok px ->
                    (px <=? pw)%float = true) /\
      pool = l1 ++ w :: l2 /\
      (forall x px, In x l1 -> word_priority fromisoformat now x = Ok px ->
                    (px <? pw)%float = true).
Proof.
  intros fromisoformat now pool max_words Hk Hne Hpool.
  destruct (words_with_priority_scorable fromisoformat now pool Hpool)
    as (scored & E & Hm & Hp & Hn).
  pose proof (sort_reverse_perm _ scored) as Hperm.
  pose proof (sort_reverse_descending _ scored Hn) as Hdesc.
  pose proof (fun k => sort_reverse_stable _ k scored) as Hstable.
  set (ranked := sort_reverse scored) in *.
  destruct ranked as [|[pw w] r] eqn:Er.
  { apply Permutation_nil in Hperm. subst scored. now destruct pool. }
  assert (Hhead : In (pw, w) scored)
    by (apply (Permutation_in _ Hperm); now left).
  assert (Hpw : word_priority fromisoformat now w = Ok pw).
  { rewrite Forall_forall in Hp. exact (Hp _ Hhead). }
  assert (Hnan : is_nan pw = false).
  { rewrite Forall_forall in Hn. exact (Hn _ Hhead). }
  (* everything of the pool is at most pw *)
  assert (Hmax : forall e, In e scored -> (fst e <=? pw)%float = true).
  { intros e He. apply (Permutation_in _ (Permutation_sym Hperm)) in He.
    destruct He as [<-|He]; [now apply leb_refl|].
    inversion Hdesc as [|? ? _ Hall]; subst.
    rewrite Forall_forall in Hall. exact (Hall _ He). }
  (* the first entry of priority pw in the pool is w *)
  specialize (Hstable pw). unfold with_priority in Hstable.
  cbn [filter fst] in Hstable. rewrite (eqb_refl _ Hnan) in Hstable.
  symmetry in Hstable.
  destruct (filter_head_split _ _ _ _ Hstable) as (s1 & s2 & Es & Hs1).
  exists w, (map snd (firstn (Nat.pred (Z.to_nat max_words)) r)), pw,
    (map snd s1), (map snd s2).
  split.
  { unfold get_words_for_review. rewrite E. cbn [bind]. fold ranked.
    rewrite Er. unfold slice_to. destruct (Z.ltb_spec max_words 0); [lia|].
    destruct (Z.to_nat max_words) as [|n] eqn:En; [lia|].
    reflexivity. }
  split; [exact Hpw|]. split.
  { intros x px Hx Hpx. rewrite <- Hm in Hx. apply in_map_iff in Hx.
    destruct Hx as (ex & <- & Hex).
    rewrite Forall_forall in Hp. rewrite (Hp _ Hex) in Hpx.
    injection Hpx as <-. now apply Hmax. }
  split.
  { rewrite <- Hm, Es, map_app. reflexivity. }
  intros x px Hx Hpx. apply in_map_iff in Hx.
  destruct Hx as (ex & <- & Hex).
  assert (Hin : In ex scored) by (rewrite Es; apply in_or_app; now left).
  rewrite Forall_forall in Hp. rewrite (Hp _ Hin) in Hpx.
  injection Hpx as <-.
  apply leb_neq_ltb; [now apply Hmax|].
  rewrite Forall_forall in Hs1. exact (Hs1 _ Hex).
Qed.

Lemma X7_first_word_is_the_best_witness :
  1 <= 2 /\ example_pool <> [] /\
  Forall (fun w => scorable example_fromisoformat 0 w = true) example_pool /\
  exists w rest,
    get_words_for_review example_fromisoformat 0 example_pool 2
      = Ok (w :: rest) /\
    word_priority example_fromisoformat 0 w = Ok 1000%float.
Proof.
  split; [lia|]. split; [discriminate|].
  split; [exact example_pool_scorable|].
  destruct (X7_first_word_is_the_best example_fromisoformat 0 example_pool 2
              ltac:(lia) ltac:(discriminate) example_pool_scorable)
    as (w & rest & pw & l1 & l2 & H1 & H2 & _).
  exists w, rest. split; [exact H1|].
  vm_compute in H1. injection H1 as <- _. reflexivity.
Defined.

(** X8.  Ranking a ranked pool changes nothing: when [out] is the whole
    pool as the selector ranks it, selecting from [out] gives what
    selecting from the pool gives, for every [max_words]. *)
Theorem X8_ranking_is_a_fixed_point :
  forall (fromisoformat : string -> option pydatetime) (now : datetime)
         (pool out : list word_dict) (n max_words : Z),
    Forall (fun w => scorable fromisoformat now w = true) pool ->
    Z.of_nat (List.length pool) <= n ->
    get_words_for_review fromisoformat now pool n = Ok out ->
    get_words_for_review fromisoformat now out max_words =
    get_words_for_review fromisoformat now pool max_words.
Proof.
  intros fromisoformat now pool out n max_words Hpool Hn.
  destruct (words_with_priority_scorable fromisoformat now pool Hpool)
    as (scored & E & Hm & Hp & Hnan).
  unfold get_words_for_review at 1. rewrite E. cbn [bind].
  assert (Hlen : List.length (sort_reverse scored) = List.length pool).
  { rewrite sort_reverse_length, <- Hm. now rewrite length_map. }
  unfold slice_to. destruct (Z.ltb_spec n 0); [lia|].
  rewrite firstn_all2 by lia. intros [= <-].
  assert (Hr : Forall (fun e => word_priority fromisoformat now (snd e)
                                = Ok (fst e)) (sort_reverse scored)).
  { apply (Permutation_Forall (Permutation_sym (sort_reverse_perm _ scored))).
    exact Hp. }
  unfold get_words_for_review.
  rewrite (words_with_priority_scored fromisoformat now _ Hr), E. cbn [bind].
  rewrite sort_reverse_descending_fixed; [reflexivity|].
  now apply sort_reverse_descending.
Qed.

Lemma X8_ranking_is_a_fixed_point_witness :
  Forall (fun w => scorable example_fromisoformat 0 w = true) example_pool /\
  Z.of_nat (List.length example_pool) <= 4 /\
  exists out,
    get_words_for_review example_fromisoformat 0 example_pool 4 = Ok out /\
    get_words_for_review example_fromisoformat 0 out 2 =
    get_words_for_review example_fromisoformat 0 example_pool 2.
Proof.
  split; [exact example_pool_scorable|]. split; [simpl; lia|].
  destruct (get_words_for_review example_fromisoformat 0 example_pool 4)
    as [out|e] eqn:E; [|discriminate E].
  exists out. split; [reflexivity|].
  exact (X8_ranking_is_a_fixed_point example_fromisoformat 0 example_pool
           out 4 2 example_pool_scorable ltac:(simpl; lia) E).
Defined.

(** X9.  The days a word is overdue are whole days, counted down: a word
    reviewed before whose next review lies k days or more, and less than
    k + 1 days, in the past (k >= 0) gets 100.0 + k * 10.0 for being due, on
    top of the easiness term, the bonus of its status and the penalty of
    its review count. *)
Theorem X9_due_word_score :
  forall (now d : datetime) (k rc : Z) (EF : float) (st : string),
    0 <= k ->
    d + k * microseconds_per_day <= now < d + (k + 1) * microseconds_per_day ->
    rc <> 0 ->
    get_priority_score now (Some (Naive d)) rc EF st =
      (days <- int_to_float k ;;
       let base := (0 + (100.0 + days * 10.0) + (3.0 - EF) * 5.0)%float in
       let base :=
         if String.eqb st "unknown" then (base + 50.0)%float
         else if String.eqb st "learning" then (base + 25.0)%float
         else base in
       count <- int_to_float rc ;;
       Ok (base - count * 0.1)%float).
Proof.
  intros now d k rc EF st Hk Hd Hrc.
  unfold get_priority_score, is_due_for_review, now_ge, now_minus,
    days_of_timedelta.
  destruct (Z.eqb_spec rc 0); [contradiction|].
  unfold microseconds_per_day in *. cbn [bind].
  destruct (Z.leb_spec d now); [|lia]. cbn [bind].
  replace ((now - d) / 86400000000) with k
    by (apply Z.div_unique with (now - d - k * 86400000000); lia).
  destruct (int_to_float k); reflexivity.
Qed.

Lemma X9_due_word_score_witness :
  0 <= 5 /\
  -432000000001 + 5 * microseconds_per_day <= 0
    < -432000000001 + (5 + 1) * microseconds_per_day /\
  2 <> 0 /\
  get_priority_score 0 (Some (Naive (-432000000001))) 2 2.5 "learning"
    = Ok 177.30000000000001%float.
Proof.
  split; [lia|]. split; [unfold microseconds_per_day; lia|].
  split; [discriminate|].
  exact (eq_trans
           (X9_due_word_score 0 (-432000000001) 5 2 2.5 "learning"
              ltac:(lia) ltac:(unfold microseconds_per_day; lia)
              ltac:(discriminate))
           eq_refl).
Defined.

(** * Progress objects and the word manager *)

(** ** Dictionaries *)

Section DictProperties.

Variable V : Type.
Implicit Types (k : string) (v : V) (d : list (string * V)).

Lemma dict_get_set_same k v d : dict_get k (dict_set k v d) = Some v.
Proof.
  induction d as [|[k' v'] d IH]; simpl.
  - now rewrite String.eqb_refl.
  - destruct (String.eqb_spec k k') as [->|Hne]; simpl.
    + now rewrite String.eqb_refl.
    + destruct (String.eqb_spec k k'); [contradiction | exact IH].
Qed.

Lemma dict_get_set_other k k' v d :
  k <> k' -> dict_get k' (dict_set k v d) = dict_get k' d.
Proof.
  intros Hne. induction d as [|[k'' v''] d IH]; simpl.
  - destruct (String.eqb_spec k' k); [congruence | reflexivity].
  - destruct (String.eqb_spec k k'') as [->|Hne']; simpl.
    + destruct (String.eqb_spec k' k''); [congruence | reflexivity].
    + destruct (String.eqb_spec k' k''); [reflexivity | exact IH].
Qed.

Lemma dict_set_get_same k v d : dict_get k d = Some v -> dict_set k v d = d.
Proof.
  induction d as [|[k' v'] d IH]; simpl; [discriminate|].
  destruct (String.eqb_spec k k') as [->|Hne].
  - now intros [= ->].
  - intros H. now rewrite IH.
Qed.

Lemma dict_get_in k v d : dict_get k d = Some v -> In (k, v) d.
Proof.
  induction d as [|[k' v'] d IH]; simpl; [discriminate|].
  destruct (String.eqb_spec k k') as [->|Hne].
  - intros [= ->]. now left.
  - intros H. right. now apply IH.
Qed.

End DictProperties.

Lemma ensure_progress_same (word : string) (m : progress_map) :
  get_progress word (ensure_progress word m)
  = Some (get (get_progress word m) (new_progress word)).
Proof.
  unfold ensure_progress, get_progress.
  destruct (dict_get word m) eqn:E; simpl; [exact E|].
  apply dict_get_set_same.
Qed.

Lemma ensure_progress_other (word other : string) (m : progress_map) :
  word <> other ->
  get_progress other (ensure_progress word m) = get_progress other m.
Proof.
  intros Hne. unfold ensure_progress, get_progress.
  destruct (dict_get word m); [reflexivity|].
  now apply dict_get_set_other.
Qed.

Lemma change_progress_same (word : string)
    (change : WordProgress -> WordProgress) (m : progress_map) :
  get_progress word (change_progress word change m)
  = option_map change (get_progress word m).
Proof.
  unfold change_progress, get_progress.
  destruct (dict_get word m) eqn:E; simpl; [|exact E].
  apply dict_get_set_same.
Qed.

Lemma change_progress_other (word other : string)
    (change : WordProgress -> WordProgress) (m : progress_map) :
  word <> other ->
  get_progress other (change_progress word change m) = get_progress other m.
Proof.
  intros Hne. unfold change_progress, get_progress.
  destruct (dict_get word m); [|reflexivity].
  now apply dict_get_set_other.
Qed.

Lemma words_of_status_in (st word : string) (progress : WordProgress)
    (m : progress_map) :
  get_progress word m = Some progress ->
  wp_status progress = st ->
  In word (words_of_status st m).
Proof.
  intros Hg Hs. unfold words_of_status.
  apply in_map_iff. exists (word, progress). split; [reflexivity|].
  apply filter_In. split; [now apply dict_get_in|].
  simpl. rewrite Hs. apply String.eqb_refl.
Qed.

(** ** Progress objects *)

Section ConversionProperties.

Variable isoformat : datetime -> string.
Variable fromisoformat : string -> option pydatetime.

(** What [isoformat] wrote is read back. *)
Lemma load_written (d : datetime) :
  (forall d, fromisoformat (isoformat d) = Some (Naive d)) ->
  (forall d, isoformat d <> ""%string) ->
  load_next_review fromisoformat (Some (PyStr (isoformat d)))
  = Ok (Some (Naive d)).
Proof.
  intros Hrt Hne. cbn [load_next_review truthy datetime_fromisoformat].
  destruct (String.eqb_spec (isoformat d) "") as [E|_]; [now apply Hne in E|].
  cbn [negb]. now rewrite Hrt.
Qed.

(** [to_dict] raises nothing but AttributeError. *)
Lemma to_dict_raises (progress : WordProgress) (e : error) :
  to_dict isoformat progress = Raises e -> e = AttributeError.
Proof.
  unfold to_dict, timestamp_to_dict.
  destruct (wp_last_review progress) as [d|d o|v]; [| |destruct (truthy v)];
    destruct (wp_next_review progress) as [d'|d' o'|v'];
    try destruct (truthy v');
    cbn [attempt_bind]; intros [=]; congruence.
Qed.

(** A timestamp held as a non-empty text cannot be written. *)
Lemma to_dict_of_text (progress : WordProgress) (s : string) :
  s <> ""%string ->
  wp_last_review progress = Stored (PyStr s) ->
  to_dict isoformat progress = Raises AttributeError.
Proof.
  intros Hs Hl. unfold to_dict. rewrite Hl. cbn [timestamp_to_dict truthy].
  destruct (String.eqb_spec s ""); [contradiction | reflexivity].
Qed.

Lemma well_typed_holds_datetimes (progress : WordProgress) :
  well_typed progress = true -> holds_datetimes progress = true.
Proof.
  unfold well_typed, holds_datetimes.
  destruct (wp_last_review progress) as [d|d o|[ | | | | ]];
    destruct (wp_next_review progress) as [d'|d' o'|[ | | | | ]];
    try discriminate; reflexivity.
Qed.

Lemma to_dict_holds_datetimes (progress : WordProgress) :
  holds_datetimes progress = true ->
  exists last next,
    to_dict isoformat progress =
      Returns
        {| word_key := Some (wp_word progress);
           other_keys :=
             {| status := Some (wp_status progress);
                review_count := Some (wp_review_count progress);
                last_review := Some last;
                next_review := Some next;
                easiness := Some (wp_easiness progress);
                interval := Some (wp_interval progress);
                consecutive_correct := Some (wp_consecutive_correct progress);
                consecutive_incorrect :=
                  Some (wp_consecutive_incorrect progress) |} |} /\
    timestamp_to_dict isoformat (wp_last_review progress) = Returns last /\
    timestamp_to_dict isoformat (wp_next_review progress) = Returns next.
Proof.
  unfold holds_datetimes, to_dict.
  destruct (wp_last_review progress) as [d|d o|[ | | | | ]];
    destruct (wp_next_review progress) as [d'|d' o'|[ | | | | ]];
    try discriminate; intros _; cbn; eauto.
Qed.

Lemma to_dict_well_typed (progress : WordProgress) :
  well_typed progress = true ->
  exists last next,
    to_dict isoformat progress =
      Returns
        {| word_key := Some (wp_word progress);
           other_keys :=
             {| status := Some (wp_status progress);
                review_count := Some (wp_review_count progress);
                last_review := Some last;
                next_review := Some next;
                easiness := Some (wp_easiness progress);
                interval := Some (wp_interval progress);
                consecutive_correct := Some (wp_consecutive_correct progress);
                consecutive_incorrect :=
                  Some (wp_consecutive_incorrect progress) |} |} /\
    timestamp_to_dict isoformat (wp_last_review progress) = Returns last /\
    timestamp_to_dict isoformat (wp_next_review progress) = Returns next.
Proof.
  intros H. now apply to_dict_holds_datetimes, well_typed_holds_datetimes.
Qed.

End ConversionProperties.

(** [from_dict] undoes [to_dict] on an object of the class. *)
Lemma from_dict_to_dict (isoformat : datetime -> string)
    (fromisoformat : string -> option pydatetime) (progress : WordProgress) :
  (forall d, fromisoformat (isoformat d) = Some (Naive d)) ->
  (forall d, isoformat d <> ""%string) ->
  well_typed progress = true ->
  exists data,
    to_dict isoformat progress = Returns data /\
    from_dict fromisoformat data = Ok progress.
Proof.
  intros Hrt Hne Hwt.
  destruct (to_dict_well_typed isoformat progress Hwt)
    as (last & next & -> & Hl & Hn).
  eexists. split; [reflexivity|].
  unfold from_dict. cbn [other_keys last_review next_review word_key status
    review_count easiness interval consecutive_correct consecutive_incorrect
    get].
  assert (El : load_next_review fromisoformat (Some last)
               = Ok (match wp_last_review progress with
                     | Instant d => Some (Naive d)
                     | AwareInstant d o => Some (Aware d o)
                     | Stored _ => None
                     end)).
  { unfold well_typed in Hwt.
    destruct (wp_last_review progress) as [dl|dl ol|[ | | | | ]];
      try discriminate; cbn in Hl; injection Hl as <-;
      [now apply load_written | reflexivity]. }
  assert (En : load_next_review fromisoformat (Some next)
               = Ok (match wp_next_review progress with
                     | Instant d => Some (Naive d)
                     | AwareInstant d o => Some (Aware d o)
                     | Stored _ => None
                     end)).
  { unfold well_typed in Hwt.
    destruct (wp_last_review progress) as [?|? ?|[ | | | | ]];
      try discriminate;
      destruct (wp_next_review progress) as [dn|dn on|[ | | | | ]];
      try discriminate; cbn in Hn; injection Hn as <-;
      solve [now apply load_written | reflexivity]. }
  rewrite El, En. cbn [bind]. f_equal.
  destruct progress as [w st rc l n ef iv cc ci]. cbn in *.
  unfold well_typed in Hwt. cbn in Hwt.
  destruct l as [dl|dl ol|[ | | | | ]]; try discriminate;
    destruct n as [dn|dn on|[ | | | | ]]; try discriminate; reflexivity.
Qed.

(** X10.  What is saved is what is loaded: when [fromisoformat] reads back
    what [isoformat] writes, [from_dict] undoes [to_dict] on every progress
    object whose timestamps are naive datetimes or None, and the dictionary
    [load_vocabulary] builds from what [_save_progress] wrote is the
    dictionary of the manager again. *)
Theorem X10_progress_round_trip :
  forall (isoformat : datetime -> string)
         (fromisoformat : string -> option pydatetime),
    (forall d, fromisoformat (isoformat d) = Some (Naive d)) ->
    (forall d, isoformat d <> ""%string) ->
    (forall progress : WordProgress,
        well_typed progress = true ->
        exists data,
          to_dict isoformat progress = Returns data /\
          from_dict fromisoformat data = Ok progress) /\
    (forall m : progress_map,
        Forall (fun item => well_typed (snd item) = true) m ->
        exists saved,
          progress_to_dicts isoformat m = Returns saved /\
          progress_from_dicts fromisoformat saved = Ok m).
Proof.
  intros isoformat fromisoformat Hrt Hne. split.
  - intros progress. now apply from_dict_to_dict.
  - induction 1 as [|[w progress] m Hp _ (saved & Es & El)].
    + exists []. split; reflexivity.
    + destruct (from_dict_to_dict isoformat fromisoformat progress Hrt Hne Hp)
        as (data & Ed & Ef).
      exists ((w, data) :: saved). cbn [progress_to_dicts progress_from_dicts].
      rewrite Ed, Es. cbn [attempt_bind]. rewrite Ef, El. split; reflexivity.
Qed.

Lemma X10_progress_round_trip_witness :
  (forall d, example_fromisoformat (example_isoformat d) = Some (Naive d)) /\
  (forall d, example_isoformat d <> ""%string) /\
  Forall (fun item => well_typed (snd item) = true) example_manager /\
  exists saved,
    progress_to_dicts example_isoformat example_manager = Returns saved /\
    progress_from_dicts example_fromisoformat saved = Ok example_manager.
Proof.
  assert (H : Forall (fun item => well_typed (snd item) = true)
                example_manager) by (repeat constructor).
  split; [exact example_codec_round_trip|].
  split; [exact example_isoformat_nonempty|]. split; [exact H|].
  exact (proj2 (X10_progress_round_trip example_isoformat
                  example_fromisoformat example_codec_round_trip
                  example_isoformat_nonempty) example_manager H).
Defined.

(** X11.  [from_dict] never raises, whatever the stored timestamps are, and
    the object it builds holds each timestamp as a datetime, naive or
    aware, or None, so [to_dict] writes it back without error. *)
Theorem X11_from_dict_builds_writable_objects :
  forall (isoformat : datetime -> string)
         (fromisoformat : string -> option pydatetime)
         (data : word_progress_dict),
    exists progress written,
      from_dict fromisoformat data = Ok progress /\
      holds_datetimes progress = true /\
      to_dict isoformat progress = Returns written.
Proof.
  intros isoformat fromisoformat data. unfold from_dict.
  destruct (load_next_review_total fromisoformat
              (last_review (other_keys data))) as (l & ->).
  destruct (load_next_review_total fromisoformat
              (next_review (other_keys data))) as (n & ->).
  cbn [bind]. eexists.
  assert (Hwt : holds_datetimes
    {| wp_word := get (word_key data) ""%string;
       wp_status := get (status (other_keys data)) "unknown"%string;
       wp_review_count := get (review_count (other_keys data)) 0;
       wp_last_review := timestamp_of l;
       wp_next_review := timestamp_of n;
       wp_easiness := get (easiness (other_keys data)) 2.5%float;
       wp_interval := get (interval (other_keys data)) 1;
       wp_consecutive_correct := get (consecutive_correct (other_keys data)) 0;
       wp_consecutive_incorrect :=
         get (consecutive_incorrect (other_keys data)) 0 |} = true)
    by (destruct l as [[?|? ?]|], n as [[?|? ?]|]; reflexivity).
  destruct (to_dict_holds_datetimes isoformat _ Hwt) as (last & next & E & _).
  eexists. split; [reflexivity|]. split; [exact Hwt | exact E].
Qed.

(** ** The word manager *)

Lemma mark_known_same (now : datetime) (word : string) (m : progress_map) :
  let prior := get (get_progress word m) (new_progress word) in
  get_progress word (mark_known now word m) =
    Some {| wp_word := wp_word prior;
            wp_status := "known";
            wp_review_count := wp_review_count prior;
            wp_last_review := Instant now;
            wp_next_review := wp_next_review prior;
            wp_easiness := wp_easiness prior;
            wp_interval := wp_interval prior;
            wp_consecutive_correct := wp_consecutive_correct prior + 1;
            wp_consecutive_incorrect := 0 |}.
Proof.
  unfold mark_known. rewrite change_progress_same, ensure_progress_same.
  reflexivity.
Qed.

Lemma mark_unknown_same (now : datetime) (word : string) (m : progress_map) :
  let prior := get (get_progress word m) (new_progress word) in
  get_progress word (mark_unknown now word m) =
    Some {| wp_word := wp_word prior;
            wp_status := "unknown";
            wp_review_count := wp_review_count prior;
            wp_last_review := Instant now;
            wp_next_review := wp_next_review prior;
            wp_easiness := wp_easiness prior;
            wp_interval := wp_interval prior;
            wp_consecutive_correct := 0;
            wp_consecutive_incorrect := wp_consecutive_incorrect prior + 1 |}.
Proof.
  unfold mark_unknown. rewrite change_progress_same, ensure_progress_same.
  reflexivity.
Qed.

(** X12.  [mark_known] sets the status of the word to "known" at once,
    whatever its review count, creating the object when the word has none;
    it counts one more consecutive correct answer and no review, leaves the
    next review as it is, lists the word among the known words and touches
    no other word. *)
Theorem X12_mark_known :
  forall (now : datetime) (word : string) (m : progress_map),
    let prior := get (get_progress word m) (new_progress word) in
    get_progress word (mark_known now word m) =
      Some {| wp_word := wp_word prior;
              wp_status := "known";
              wp_review_count := wp_review_count prior;
              wp_last_review := Instant now;
              wp_next_review := wp_next_review prior;
              wp_easiness := wp_easiness prior;
              wp_interval := wp_interval prior;
              wp_consecutive_correct := wp_consecutive_correct prior + 1;
              wp_consecutive_incorrect := 0 |} /\
    In word (get_known_words (mark_known now word m)) /\
    forall other : string,
      other <> word ->
      get_progress other (mark_known now word m) = get_progress other m.
Proof.
  intros now word m prior.
  assert (Hget : get_progress word (mark_known now word m) =
      Some {| wp_word := wp_word prior;
              wp_status := "known";
              wp_review_count := wp_review_count prior;
              wp_last_review := Instant now;
              wp_next_review := wp_next_review prior;
              wp_easiness := wp_easiness prior;
              wp_interval := wp_interval prior;
              wp_consecutive_correct := wp_consecutive_correct prior + 1;
              wp_consecutive_incorrect := 0 |}).
  { apply mark_known_same. }
  split; [exact Hget|]. split.
  - eapply words_of_status_in; [exact Hget | reflexivity].
  - intros other Hne. unfold mark_known.
    rewrite change_progress_other by congruence.
    now apply ensure_progress_other.
Qed.

Lemma X12_mark_known_witness :
  In "baum"%string (get_known_words (mark_known 9 "baum" example_manager)) /\
  get_progress "haus" (mark_known 9 "baum" example_manager)
    = get_progress "haus" example_manager.
Proof.
  destruct (X12_mark_known 9 "baum" example_manager) as (_ & H2 & H3).
  split; [exact H2|]. apply H3. discriminate.
Defined.

(** X13.  [mark_learning] only promotes: a word whose status is not
    "unknown" is left exactly as it is, last review included, and so is
    every other word; a word without progress is created and becomes
    "learning". *)
Theorem X13_mark_learning_only_promotes :
  forall (now : datetime) (word : string) (m : progress_map),
    (forall progress,
        get_progress word m = Some progress ->
        wp_status progress <> "unknown"%string ->
        mark_learning now word m = m) /\
    (get_progress word m = None ->
     get_progress word (mark_learning now word m) =
       Some {| wp_word := word;
               wp_status := "learning";
               wp_review_count := 0;
               wp_last_review := Instant now;
               wp_next_review := Stored PyNone;
               wp_easiness := 2.5;
               wp_interval := 1;
               wp_consecutive_correct := 0;
               wp_consecutive_incorrect := 0 |}) /\
    (forall other : string,
        other <> word ->
        get_progress other (mark_learning now word m) = get_progress other m).
Proof.
  intros now word m. split; [|split].
  - intros progress Hg Hs. unfold mark_learning, ensure_progress, get_progress in *.
    rewrite Hg. unfold change_progress. rewrite Hg.
    destruct (String.eqb_spec (wp_status progress) "unknown");
      [contradiction|].
    now apply dict_set_get_same.
  - intros Hg. unfold mark_learning.
    rewrite change_progress_same, ensure_progress_same, Hg. reflexivity.
  - intros other Hne. unfold mark_learning.
    rewrite change_progress_other by congruence.
    now apply ensure_progress_other.
Qed.

Lemma X13_mark_learning_only_promotes_witness :
  mark_learning 5 "haus" example_manager = example_manager /\
  get_progress "wald" (mark_learning 5 "wald" example_manager) =
    Some {| wp_word := "wald"; wp_status := "learning"; wp_review_count := 0;
            wp_last_review := Instant 5; wp_next_review := Stored PyNone;
            wp_easiness := 2.5; wp_interval := 1;
            wp_consecutive_correct := 0; wp_consecutive_incorrect := 0 |}.
Proof.
  destruct (X13_mark_learning_only_promotes 5 "haus" example_manager)
    as (H1 & _ & _).
  destruct (X13_mark_learning_only_promotes 5 "wald" example_manager)
    as (_ & H2 & _).
  split.
  - apply (H1 _ eq_refl). discriminate.
  - apply H2. reflexivity.
Defined.

Lemma update_progress_same (word : string) (data : word_progress_dict)
    (m : progress_map) :
  get_progress word (update_progress word data m) =
    Some (setattr_all data (get (get_progress word m) (new_progress word))).
Proof.
  unfold update_progress.
  now rewrite change_progress_same, ensure_progress_same.
Qed.

Lemma update_progress_other (word other : string) (data : word_progress_dict)
    (m : progress_map) :
  word <> other ->
  get_progress other (update_progress word data m) = get_progress other m.
Proof.
  intros Hne. unfold update_progress.
  rewrite change_progress_other by exact Hne.
  now apply ensure_progress_other.
Qed.

(** ** Reviews through the coordinator *)

Section CoordinatorProperties.

Variable isoformat : datetime -> string.

(** The updater writes its two timestamps as text. *)
Lemma update_word_progress_writes_text (now : datetime) (st st' : progress_dict)
    (q : Z) :
  update_word_progress isoformat now st q = Ok st' ->
  last_review st' = Some (PyStr (isoformat now)) /\
  exists nr, next_review st' = Some (PyStr (isoformat nr)).
Proof.
  unfold update_word_progress.
  destruct (calculate_next_review _ _ _ _ _) as [[[ne ni] nr]|e];
    [|discriminate].
  cbn [bind]. intros [= <-]. split; [reflexivity|]. now exists nr.
Qed.

(** One object that cannot be written stops the whole save. *)
Lemma progress_to_dicts_raises (word : string) (progress : WordProgress)
    (m : progress_map) :
  In (word, progress) m ->
  to_dict isoformat progress = Raises AttributeError ->
  progress_to_dicts isoformat m = Raises AttributeError.
Proof.
  intros Hin Hp. induction m as [|[w p] m IH]; [contradiction|].
  cbn [progress_to_dicts]. destruct Hin as [[= -> ->]|Hin].
  - now rewrite Hp.
  - destruct (to_dict isoformat p) as [d|e] eqn:E.
    + cbn [attempt_bind]. now rewrite (IH Hin).
    + apply to_dict_raises in E. now subst e.
Qed.

(** After the review the object of the word holds its last review as the
    text the updater wrote. *)
Lemma marked_in_memory_text
    (mark : datetime -> string -> progress_map -> progress_map)
    (quality : Z) (t_mark t_review : datetime) (word : string)
    (m m' : progress_map) :
  (exists p, get_progress word (mark t_mark word m) = Some p) ->
  marked_in_memory isoformat mark quality t_mark t_review word m = Returns m' ->
  exists p', get_progress word m' = Some p' /\
             wp_last_review p' = Stored (PyStr (isoformat t_review)).
Proof.
  intros (p & Hp). unfold marked_in_memory. rewrite Hp.
  destruct (to_dict isoformat p) as [d|e]; [|discriminate].
  cbn [attempt_bind].
  destruct (update_word_progress isoformat t_review (other_keys d) quality)
    as [u|e] eqn:Eu; [|discriminate].
  cbn [scheduler attempt_bind]. intros [= <-].
  rewrite update_progress_same. eexists. split; [reflexivity|].
  destruct (update_word_progress_writes_text _ _ _ _ Eu) as [Hl _].
  cbn [setattr_all other_keys wp_last_review]. now rewrite Hl.
Qed.

End CoordinatorProperties.

(** X14.  A progress object that [update_progress] filled from a result of
    the review updater holds its last review as text, so [to_dict] raises
    AttributeError on it, and so does the save of any dictionary that
    contains it. *)
Theorem X14_reviewed_object_cannot_be_written :
  forall (isoformat : datetime -> string) (now : datetime)
         (st st' : progress_dict) (q : Z) (word : string)
         (key : option string) (m : progress_map),
    (forall d, isoformat d <> ""%string) ->
    update_word_progress isoformat now st q = Ok st' ->
    let m' := update_progress word {| word_key := key; other_keys := st' |} m in
    exists progress,
      get_progress word m' = Some progress /\
      wp_last_review progress = Stored (PyStr (isoformat now)) /\
      to_dict isoformat progress = Raises AttributeError /\
      progress_to_dicts isoformat m' = Raises AttributeError.
Proof.
  intros isoformat now st st' q word key m Hne Hu m'.
  destruct (update_word_progress_writes_text isoformat _ _ _ _ Hu) as [Hl _].
  subst m'. eexists. split; [apply update_progress_same|].
  assert (Hlast : wp_last_review
            (setattr_all {| word_key := key; other_keys := st' |}
               (get (get_progress word m) (new_progress word)))
          = Stored (PyStr (isoformat now))).
  { cbn [setattr_all other_keys wp_last_review]. now rewrite Hl. }
  assert (Hraise := to_dict_of_text isoformat _ _ (Hne now) Hlast).
  split; [exact Hlast|]. split; [exact Hraise|].
  eapply progress_to_dicts_raises; [|exact Hraise].
  apply dict_get_in. apply update_progress_same.
Qed.

Lemma X14_reviewed_object_cannot_be_written_witness :
  (forall d, example_isoformat d <> ""%string) /\
  exists st',
    update_word_progress example_isoformat 7 example_progress 5 = Ok st' /\
    progress_to_dicts example_isoformat
      (update_progress "haus" {| word_key := Some "haus"%string;
                                 other_keys := st' |} example_manager)
    = Raises AttributeError.
Proof.
  split; [exact example_isoformat_nonempty|].
  destruct (update_word_progress example_isoformat 7 example_progress 5)
    as [st'|e] eqn:E; [|discriminate E].
  exists st'. split; [reflexivity|].
  destruct (X14_reviewed_object_cannot_be_written example_isoformat 7
              example_progress st' 5 "haus" (Some "haus"%string)
              example_manager example_isoformat_nonempty E)
    as (p & _ & _ & _ & H).
  exact H.
Defined.

(** A review of quality 0 returns. *)
Lemma review_of_quality_0_returns (isoformat : datetime -> string)
    (now : datetime) (st : progress_dict) :
  exists st', update_word_progress isoformat now st 0 = Ok st'.
Proof.
  destruct (update_word_progress_defined isoformat now st 0 eq_refl eq_refl)
    as (n & _ & ->).
  eexists. reflexivity.
Qed.

(** X15.  Neither mark of the coordinator gets as far as the storage:
    [mark_word_known] always raises, AttributeError unless the review
    itself raised, and [mark_word_unknown] always raises AttributeError,
    because the object of the marked word holds text where [to_dict]
    expects a datetime. *)
Theorem X15_marks_never_reach_the_storage :
  forall (isoformat : datetime -> string) (t_mark t_review : datetime)
         (word : string) (m : progress_map),
    (forall d, isoformat d <> ""%string) ->
    (mark_word_known isoformat t_mark t_review word m = Raises AttributeError \/
     exists e,
       mark_word_known isoformat t_mark t_review word m = Raises (Scheduler e))
    /\
    mark_word_unknown isoformat t_mark t_review word m = Raises AttributeError.
Proof.
  intros isoformat t_mark t_review word m Hne.
  assert (Hsave : forall mark quality m',
    (exists p, get_progress word (mark t_mark word m) = Some p) ->
    marked_in_memory isoformat mark quality t_mark t_review word m
      = Returns m' ->
    progress_to_dicts isoformat m' = Raises AttributeError).
  { intros mark quality m' Hp Hm.
    destruct (marked_in_memory_text isoformat mark quality t_mark t_review
                word m m' Hp Hm) as (p' & Hg & Hl).
    eapply progress_to_dicts_raises; [apply dict_get_in; exact Hg|].
    eapply to_dict_of_text; [apply (Hne t_review) | exact Hl]. }
  split.
  - unfold mark_word_known, mark_word.
    destruct (marked_in_memory isoformat mark_known 5 t_mark t_review word m)
      as [m'|e] eqn:Em.
    + left. cbn [attempt_bind].
      rewrite (Hsave mark_known 5 m'); [reflexivity| |exact Em].
      eexists. apply mark_known_same.
    + cbn [attempt_bind]. destruct e as [|e]; [now left | right; now exists e].
  - unfold mark_word_unknown, mark_word.
    destruct (marked_in_memory isoformat mark_unknown 0 t_mark t_review word m)
      as [m'|e] eqn:Em.
    + cbn [attempt_bind].
      rewrite (Hsave mark_unknown 0 m'); [reflexivity| |exact Em].
      eexists. apply mark_unknown_same.
    + cbn [attempt_bind]. f_equal.
      (* a review of quality 0 raises nothing *)
      unfold marked_in_memory in Em.
      rewrite mark_unknown_same in Em.
      destruct (to_dict isoformat _) as [d|e'] eqn:Ed.
      * cbn [attempt_bind] in Em.
        destruct (review_of_quality_0_returns isoformat t_review
                    (other_keys d)) as (u & Eu).
        rewrite Eu in Em. discriminate Em.
      * cbn [attempt_bind] in Em. injection Em as <-.
        now apply to_dict_raises in Ed.
Qed.

Lemma X15_marks_never_reach_the_storage_witness :
  (forall d, example_isoformat d <> ""%string) /\
  mark_word_unknown example_isoformat 3 4 "haus" example_manager
    = Raises AttributeError.
Proof.
  split; [exact example_isoformat_nonempty|].
  exact (proj2 (X15_marks_never_reach_the_storage example_isoformat 3 4
                  "haus" example_manager example_isoformat_nonempty)).
Defined.

(** X16.  What [mark_word_known] leaves in memory for a word whose object
    is well typed and whose review of quality 5 is defined: one review
    more, two consecutive correct answers more (one from the mark, one from
    the review), no consecutive incorrect one, and the status of the
    review, so "known" only when the word had been reviewed three times
    before and "learning" otherwise; the next review is held as the text of
    an instant one to 365 days after the review; no other word changes. *)
Theorem X16_mark_word_known_in_memory :
  forall (isoformat : datetime -> string) (t_mark t_review : datetime)
         (word : string) (m : progress_map),
    let prior := get (get_progress word m) (new_progress word) in
    well_typed prior = true ->
    object_review_defined prior 5 = true ->
    exists m' progress nr,
      marked_in_memory isoformat mark_known 5 t_mark t_review word m
        = Returns m' /\
      get_progress word m' = Some progress /\
      wp_status progress
        = (if 3 <=? wp_review_count prior
           then "known"%string else "learning"%string) /\
      wp_review_count progress = wp_review_count prior + 1 /\
      wp_consecutive_correct progress = wp_consecutive_correct prior + 2 /\
      wp_consecutive_incorrect progress = 0 /\
      wp_last_review progress = Stored (PyStr (isoformat t_review)) /\
      wp_next_review progress = Stored (PyStr (isoformat nr)) /\
      t_review + microseconds_per_day <= nr
        <= t_review + 365 * microseconds_per_day /\
      forall other : string,
        other <> word -> get_progress other m' = get_progress other m.
Proof.
  intros isoformat t_mark t_review word m prior Hwt Hdef.
  pose proof (mark_known_same t_mark word m) as Hp1. cbv zeta in Hp1.
  fold prior in Hp1.
  set (p1 := {| wp_word := wp_word prior; wp_status := "known";
                wp_review_count := wp_review_count prior;
                wp_last_review := Instant t_mark;
                wp_next_review := wp_next_review prior;
                wp_easiness := wp_easiness prior;
                wp_interval := wp_interval prior;
                wp_consecutive_correct := wp_consecutive_correct prior + 1;
                wp_consecutive_incorrect := 0 |}) in *.
  assert (Hwt1 : well_typed p1 = true).
  { unfold well_typed in *. subst p1. cbn [wp_last_review wp_next_review].
    destruct (wp_last_review prior) as [?|? ?|[ | | | | ]];
      try discriminate;
      exact Hwt. }
  destruct (to_dict_well_typed isoformat p1 Hwt1) as (last & next & Ed & _).
  match type of Ed with _ = Returns ?x => set (d := x) in * end.
  assert (Hrd : review_defined (other_keys d) 5 = true) by exact Hdef.
  destruct (update_word_progress_defined isoformat t_review (other_keys d) 5
              eq_refl Hrd) as (n & _ & Eu).
  cbv zeta in Eu.
  match type of Eu with _ = Ok ?x => set (u := x) in * end.
  exists (update_progress word {| word_key := word_key d; other_keys := u |}
            (mark_known t_mark word m)).
  eexists. exists (t_review + timedelta_days (Z.max 1 (Z.min 365 n))).
  split.
  { unfold marked_in_memory. rewrite Hp1, Ed. cbn [attempt_bind].
    rewrite Eu. reflexivity. }
  split; [rewrite update_progress_same, Hp1; reflexivity|].
  subst u d p1. cbn.
  split; [destruct (3 <=? wp_review_count prior); reflexivity|].
  repeat (split; [reflexivity || lia|]).
  split; [unfold timedelta_days, microseconds_per_day; lia|].
  intros other Hne. rewrite update_progress_other by congruence.
  unfold mark_known. rewrite change_progress_other by congruence.
  apply ensure_progress_other. congruence.
Qed.

Lemma X16_mark_word_known_in_memory_witness :
  well_typed (new_progress "wald") = true /\
  object_review_defined (new_progress "wald") 5 = true /\
  exists m' progress,
    marked_in_memory example_isoformat mark_known 5 3 4 "wald" example_manager
      = Returns m' /\
    get_progress "wald" m' = Some progress /\
    wp_status progress = "learning"%string /\
    wp_consecutive_correct progress = 2.
Proof.
  split; [reflexivity|]. split; [reflexivity|].
  destruct (X16_mark_word_known_in_memory example_isoformat 3 4 "wald"
              example_manager eq_refl eq_refl)
    as (m' & p & nr & H1 & H2 & H3 & _ & H5 & _).
  exists m', p. repeat split; assumption.
Defined.

(** X17.  What [mark_word_unknown] leaves in memory for a word whose object
    is well typed: the review of quality 0 never raises; the word has one
    review more, two consecutive incorrect answers more, no consecutive
    correct one, status "unknown" and interval 1, and its next review is held
    as the text of the instant one day after the review; no other word
    changes. *)
Theorem X17_mark_word_unknown_in_memory :
  forall (isoformat : datetime -> string) (t_mark t_review : datetime)
         (word : string) (m : progress_map),
    let prior := get (get_progress word m) (new_progress word) in
    well_typed prior = true ->
    exists m' progress,
      marked_in_memory isoformat mark_unknown 0 t_mark t_review word m
        = Returns m' /\
      get_progress word m' = Some progress /\
      wp_status progress = "unknown"%string /\
      wp_review_count progress = wp_review_count prior + 1 /\
      wp_consecutive_correct progress = 0 /\
      wp_consecutive_incorrect progress = wp_consecutive_incorrect prior + 2 /\
      wp_interval progress = 1 /\
      wp_next_review progress
        = Stored (PyStr (isoformat (t_review + microseconds_per_day))) /\
      forall other : string,
        other <> word -> get_progress other m' = get_progress other m.
Proof.
  intros isoformat t_mark t_review word m prior Hwt.
  pose proof (mark_unknown_same t_mark word m) as Hp1. cbv zeta in Hp1.
  fold prior in Hp1.
  set (p1 := {| wp_word := wp_word prior; wp_status := "unknown";
                wp_review_count := wp_review_count prior;
                wp_last_review := Instant t_mark;
                wp_next_review := wp_next_review prior;
                wp_easiness := wp_easiness prior;
                wp_interval := wp_interval prior;
                wp_consecutive_correct := 0;
                wp_consecutive_incorrect :=
                  wp_consecutive_incorrect prior + 1 |}) in *.
  assert (Hwt1 : well_typed p1 = true).
  { unfold well_typed in *. subst p1. cbn [wp_last_review wp_next_review].
    destruct (wp_last_review prior) as [?|? ?|[ | | | | ]];
      try discriminate;
      exact Hwt. }
  destruct (to_dict_well_typed isoformat p1 Hwt1) as (last & next & Ed & _).
  match type of Ed with _ = Returns ?x => set (d := x) in * end.
  destruct (update_word_progress_defined isoformat t_review (other_keys d) 0
              eq_refl eq_refl) as (n & Hn & Eu).
  cbv zeta in Eu, Hn. cbn in Hn. injection Hn as <-.
  match type of Eu with _ = Ok ?x => set (u := x) in * end.
  exists (update_progress word {| word_key := word_key d; other_keys := u |}
            (mark_unknown t_mark word m)).
  eexists.
  split.
  { unfold marked_in_memory. rewrite Hp1, Ed. cbn [attempt_bind].
    rewrite Eu. reflexivity. }
  split; [rewrite update_progress_same, Hp1; reflexivity|].
  subst u d p1. cbn.
  repeat (split; [reflexivity || lia|]).
  intros other Hne. rewrite update_progress_other by congruence.
  unfold mark_unknown. rewrite change_progress_other by congruence.
  apply ensure_progress_other. congruence.
Qed.

Lemma X17_mark_word_unknown_in_memory_witness :
  well_typed (get (get_progress "haus" example_manager) (new_progress "haus"))
    = true /\
  exists m' progress,
    marked_in_memory example_isoformat mark_unknown 0 3 4 "haus"
      example_manager = Returns m' /\
    get_progress "haus" m' = Some progress /\
    wp_consecutive_incorrect progress = 2.
Proof.
  split; [reflexivity|].
  destruct (X17_mark_word_unknown_in_memory example_isoformat 3 4 "haus"
              example_manager eq_refl)
    as (m' & p & H1 & H2 & _ & _ & _ & H6 & _).
  exists m', p. repeat split; assumption.
Defined.

(** ** Reset and statistics *)

Section ResetProperties.

Variable isoformat : datetime -> string.

Lemma progress_to_dicts_well_typed (m : progress_map) :
  Forall (fun item => well_typed (snd item) = true) m ->
  exists saved, progress_to_dicts isoformat m = Returns saved.
Proof.
  induction 1 as [|[w p] m Hp _ (saved & E)]; [now exists []|].
  destruct (to_dict_well_typed isoformat p Hp) as (l & n & Ed & _).
  cbn [progress_to_dicts]. rewrite Ed, E. eexists. reflexivity.
Qed.

Lemma dict_set_new_well_typed (w : string) (m : progress_map) :
  Forall (fun item => well_typed (snd item) = true) m ->
  Forall (fun item => well_typed (snd item) = true)
    (dict_set w (new_progress w) m).
Proof.
  induction 1 as [|[k p] m Hp Hm IH]; simpl.
  - repeat constructor.
  - destruct (String.eqb k w) eqn:E; destruct (String.eqb w k) eqn:E';
      constructor; auto.
Qed.

Lemma reset_fold_other (l : list string) (acc : progress_map) (w : string) :
  ~ In w l ->
  get_progress w
    (fold_left (fun m x => dict_set x (new_progress x) m) l acc)
  = get_progress w acc.
Proof.
  revert acc. induction l as [|x l IH]; intros acc Hn; [reflexivity|].
  cbn [fold_left]. rewrite IH by (intros H; apply Hn; now right).
  apply dict_get_set_other. intros ->. apply Hn. now left.
Qed.

Lemma reset_fold_in (l : list string) (acc : progress_map) (w : string) :
  In w l ->
  get_progress w
    (fold_left (fun m x => dict_set x (new_progress x) m) l acc)
  = Some (new_progress w).
Proof.
  revert acc. induction l as [|x l IH]; intros acc Hin; [contradiction|].
  cbn [fold_left]. destruct (in_dec string_dec w l) as [Hl|Hl].
  - now apply IH.
  - destruct Hin as [->|Hin]; [|contradiction].
    rewrite reset_fold_other by exact Hl. apply dict_get_set_same.
Qed.

Lemma reset_fold_well_typed (l : list string) (acc : progress_map) :
  Forall (fun item => well_typed (snd item) = true) acc ->
  Forall (fun item => well_typed (snd item) = true)
    (fold_left (fun m x => dict_set x (new_progress x) m) l acc).
Proof.
  revert acc. induction l as [|x l IH]; intros acc H; [exact H|].
  cbn [fold_left]. apply IH. now apply dict_set_new_well_typed.
Qed.

End ResetProperties.

(** X18.  After [reset_progress] every word of the vocabulary has the
    progress of a new word, no other word has any, and the dictionary
    [_save_progress] builds for the storage is built without error, whatever
    the objects held before. *)
Theorem X18_reset_progress :
  forall (isoformat : datetime -> string) (vocabulary : list string),
    (forall w, In w vocabulary ->
               get_progress w (reset_progress vocabulary)
               = Some (new_progress w)) /\
    (forall w, ~ In w vocabulary ->
               get_progress w (reset_progress vocabulary) = None) /\
    exists saved,
      progress_to_dicts isoformat (reset_progress vocabulary) = Returns saved.
Proof.
  intros isoformat vocabulary. unfold reset_progress. split; [|split].
  - intros w Hw. now apply reset_fold_in.
  - intros w Hw. now rewrite reset_fold_other.
  - apply progress_to_dicts_well_typed, reset_fold_well_typed. constructor.
Qed.

Lemma X18_reset_progress_witness :
  get_progress "haus" (reset_progress ["haus"; "baum"; "haus"]%string)
    = Some (new_progress "haus") /\
  get_progress "wald" (reset_progress ["haus"; "baum"; "haus"]%string) = None.
Proof.
  destruct (X18_reset_progress example_isoformat
              ["haus"; "baum"; "haus"]%string) as (H1 & H2 & _).
  split.
  - apply H1. now left.
  - apply H2. simpl. intros [H|[H|[H|[]]]]; discriminate H.
Defined.

(** X19.  The statistics of the storage always add up: known_words,
    learning_words and unknown_words are non-negative and their sum is
    total_words, the length of the stored vocabulary, because a word
    without stored progress, or with any other status, is counted as
    unknown. *)
Theorem X19_statistics_add_up :
  forall (vocabulary : list (option string))
         (progress : list (string * word_progress_dict)),
    let '(total, known, learning, unknown) :=
      update_statistics vocabulary progress in
    total = Z.of_nat (List.length vocabulary) /\
    0 <= known /\ 0 <= learning /\ 0 <= unknown /\
    known + learning + unknown = total.
Proof.
  intros vocabulary progress. unfold update_statistics.
  set (step := fun (counts : Z * Z * Z) (word_entry : option string) => _).
  assert (H : forall l k le u,
    0 <= k -> 0 <= le -> 0 <= u ->
    let '(k', le', u') := fold_left step l (k, le, u) in
    0 <= k' /\ 0 <= le' /\ 0 <= u' /\
    k' + le' + u' = k + le + u + Z.of_nat (List.length l)).
  { induction l as [|x l IH]; intros k le u Hk Hle Hu.
    - cbn. lia.
    - cbn [fold_left List.length].
      assert (Hs : exists k1 le1 u1,
                 step (k, le, u) x = (k1, le1, u1) /\
                 0 <= k1 /\ 0 <= le1 /\ 0 <= u1 /\
                 k1 + le1 + u1 = k + le + u + 1).
      { subst step. cbv beta iota zeta.
        destruct (String.eqb _ "known");
          [|destruct (String.eqb _ "learning")];
          eexists; eexists; eexists; (split; [reflexivity|]); lia. }
      destruct Hs as (k1 & le1 & u1 & -> & H1 & H2 & H3 & H4).
      specialize (IH k1 le1 u1 H1 H2 H3).
      destruct (fold_left step l (k1, le1, u1)) as [[k' le'] u']. lia. }
  specialize (H vocabulary 0 0 0 ltac:(lia) ltac:(lia) ltac:(lia)).
  destruct (fold_left step vocabulary (0, 0, 0)) as [[k' le'] u']. lia.
Qed.

(** X20.  A next review stored with a UTC offset reads back as an aware
    datetime, which the try block of the selector lets through.  For a word
    that was reviewed, the comparison with the clock then raises TypeError,
    and so does the whole selection when the words before it can be scored,
    whatever [max_words]; a word never reviewed is scored 1000 before the
    comparison is reached. *)
Theorem X20_aware_next_review_raises :
  forall (fromisoformat : string -> option pydatetime) (now : datetime)
         (w : word_dict) (p : progress_dict) (s : string)
         (d : datetime) (utcoffset : Z),
    progress w = Some p ->
    next_review p = Some (PyStr s) ->
    s <> EmptyString ->
    fromisoformat s = Some (Aware d utcoffset) ->
    (get (review_count p) 0 <> 0 ->
     word_priority fromisoformat now w = Raise TypeError /\
     scorable fromisoformat now w = false /\
     forall (l1 l2 : list word_dict) (max_words : Z),
       Forall (fun x => is_ok (word_priority fromisoformat now x) = true) l1 ->
       get_words_for_review fromisoformat now (l1 ++ w :: l2) max_words
       = Raise TypeError) /\
    (get (review_count p) 0 = 0 ->
     word_priority fromisoformat now w = Ok 1000%float).
Proof.
  intros fromisoformat now w p s d utcoffset Hp Hs Hne Hd.
  assert (Hl : load_next_review fromisoformat (next_review p)
               = Ok (Some (Aware d utcoffset))).
  { rewrite Hs. unfold load_next_review, datetime_fromisoformat, truthy.
    rewrite Hd. destruct (String.eqb_spec s EmptyString); [contradiction|].
    reflexivity. }
  split.
  - intros Hrc.
    assert (Hw : word_priority fromisoformat now w = Raise TypeError).
    { unfold word_priority. rewrite Hp. cbn [get]. rewrite Hl. cbn [bind].
      unfold get_priority_score.
      destruct (Z.eqb_spec (get (review_count p) 0) 0); [contradiction|].
      reflexivity. }
    split; [exact Hw|]. split; [unfold scorable; now rewrite Hw|].
    intros l1 l2 max_words Hl1. unfold get_words_for_review.
    assert (E : words_with_priority fromisoformat now (l1 ++ w :: l2)
                = Raise TypeError).
    { induction Hl1 as [|x l1 Hx _ IH]; cbn [app words_with_priority].
      - now rewrite Hw.
      - destruct (word_priority fromisoformat now x); [|discriminate].
        cbn [bind]. now rewrite IH. }
    now rewrite E.
  - intros Hrc. unfold word_priority. rewrite Hp. cbn [get]. rewrite Hl.
    cbn [bind]. unfold get_priority_score. now rewrite Hrc.
Qed.

Lemma X20_aware_next_review_raises_witness :
  word_priority example_fromisoformat 0
    (example_word "zoned" 1 (Some (PyStr "0+00:00"))) = Raise TypeError /\
  get_words_for_review example_fromisoformat 0
    (example_pool ++ example_word "zoned" 1 (Some (PyStr "0+00:00")) :: []) 0
  = Raise TypeError /\
  word_priority example_fromisoformat 0
    (example_word "zoned" 0 (Some (PyStr "0+00:00"))) = Ok 1000%float.
Proof.
  assert (Hpool : Forall (fun x =>
                    is_ok (word_priority example_fromisoformat 0 x) = true)
                    example_pool) by (repeat constructor).
  destruct (X20_aware_next_review_raises example_fromisoformat 0
              (example_word "zoned" 1 (Some (PyStr "0+00:00"))) _
              "0+00:00" 0 0 eq_refl eq_refl ltac:(discriminate) eq_refl)
    as [H1 _].
  destruct (H1 ltac:(discriminate)) as (Hw & _ & Hg).
  destruct (X20_aware_next_review_raises example_fromisoformat 0
              (example_word "zoned" 0 (Some (PyStr "0+00:00"))) _
              "0+00:00" 0 0 eq_refl eq_refl ltac:(discriminate) eq_refl)
    as [_ H0].
  split; [exact Hw|]. split; [exact (Hg example_pool [] 0 Hpool)|].
  exact (H0 eq_refl).
Defined.
